(** * Dashboard API (backend/lambda/app.py): a shallow embedding

    The Lambda handler of the serverless dashboard is embedded function by
    function.  Python values keep the shape they have in the source:
    - dictionaries used as maps (the response headers, the inbound event)
      are finite maps from strings;
    - [float] is IEEE 754 binary64, computed with the Standard Library's
      specification of floating-point arithmetic;
    - [hashlib.md5] is RFC 1321, computed on the bytes of the alias;
    - the built-in [hash], which is salted per process, is a parameter;
    - an exception is a value of an error monad. *)

From Stdlib Require Import ZArith String Ascii List Bool Lia SpecFloat.
From stdpp Require Import base option list strings gmap.

Import ListNotations.
Local Open Scope string_scope.
Local Open Scope Z_scope.

(** ** Binary64 floating point *)

Module Float64.

Definition float : Type := spec_float.

Definition prec : Z := 53.
Definition emax : Z := 1024.

(** [float(z)] for a Python integer: the nearest binary64. *)
Definition of_Z (z : Z) : float := binary_normalize prec emax z 0 false.

Definition add : float -> float -> float := SFadd prec emax.
Definition sub : float -> float -> float := SFsub prec emax.
Definition mul : float -> float -> float := SFmul prec emax.
(** IEEE division; Python's [/] raises on a zero divisor before it gets
    here, see [truediv] below. *)
Definition div : float -> float -> float := SFdiv prec emax.

Definition leb : float -> float -> bool := SFleb.
Definition ltb : float -> float -> bool := SFltb.
Definition eqb : float -> float -> bool := SFeqb.
(** Python's [x >= y]. *)
Definition geb (x y : float) : bool := SFleb y x.

Definition abs : float -> float := SFabs.

Definition is_zero (x : float) : bool :=
  match x with S754_zero _ => true | _ => false end.

(** The literal [n / 10^k] as Python reads it: the correctly rounded
    quotient (both operands are exact for the literals used here). *)
Definition decimal (n : Z) (k : nat) : float :=
  div (of_Z n) (of_Z (10 ^ Z.of_nat k)).

(** [int(x)] on a finite float: truncation towards zero.  On an infinity
    or a NaN Python raises; [None] stands for that. *)
Definition trunc (x : float) : option Z :=
  match x with
  | S754_zero _ => Some 0
  | S754_finite s m e =>
      let a := if 0 <=? e then Z.shiftl (Zpos m) e
               else Z.shiftr (Zpos m) (- e) in
      Some (if s then - a else a)
  | S754_infinity _ | S754_nan => None
  end.

(** Nearest integer to [n / d], ties to the even one ([0 < d]). *)
Definition div_half_even (n d : Z) : Z :=
  let q := n / d in
  let r := n mod d in
  match 2 * r ?= d with
  | Lt => q
  | Gt => q + 1
  | Eq => if Z.even q then q else q + 1
  end.

(** [round(x, 1)]: the exact value of [x] is rounded to one decimal
    place, ties to even, and the decimal result is converted back to the
    nearest binary64 (CPython's correctly rounded [round]).  Sign is kept
    on a zero result; infinities and NaN are returned unchanged. *)
Definition round1 (x : float) : float :=
  match x with
  | S754_finite s m e =>
      let tenths :=
        if 0 <=? e then Z.shiftl (10 * Zpos m) e
        else div_half_even (10 * Zpos m) (Z.shiftl 1 (- e)) in
      match tenths with
      | Zpos t => div (S754_finite s t 0) (of_Z 10)
      | _ => S754_zero s
      end
  | _ => x
  end.

End Float64.

(** ** MD5 (RFC 1321), as [hashlib.md5(...).hexdigest()] *)

Module MD5.

Definition mask32 (x : Z) : Z := Z.land x 0xffffffff.
Definition not32 (x : Z) : Z := Z.lxor x 0xffffffff.
Definition rotl32 (x c : Z) : Z :=
  mask32 (Z.lor (Z.shiftl x c) (Z.shiftr x (32 - c))).

Definition shifts : list Z :=
  [7; 12; 17; 22; 7; 12; 17; 22; 7; 12; 17; 22; 7; 12; 17; 22;
   5;  9; 14; 20; 5;  9; 14; 20; 5;  9; 14; 20; 5;  9; 14; 20;
   4; 11; 16; 23; 4; 11; 16; 23; 4; 11; 16; 23; 4; 11; 16; 23;
   6; 10; 15; 21; 6; 10; 15; 21; 6; 10; 15; 21; 6; 10; 15; 21].

(** [floor(2^32 * abs(sin(i + 1)))] for [i = 0 .. 63]. *)
Definition sines : list Z :=
  [0xd76aa478; 0xe8c7b756; 0x242070db; 0xc1bdceee;
   0xf57c0faf; 0x4787c62a; 0xa8304613; 0xfd469501;
   0x698098d8; 0x8b44f7af; 0xffff5bb1; 0x895cd7be;
   0x6b901122; 0xfd987193; 0xa679438e; 0x49b40821;
   0xf61e2562; 0xc040b340; 0x265e5a51; 0xe9b6c7aa;
   0xd62f105d; 0x02441453; 0xd8a1e681; 0xe7d3fbc8;
   0x21e1cde6; 0xc33707d6; 0xf4d50d87; 0x455a14ed;
   0xa9e3e905; 0xfcefa3f8; 0x676f02d9; 0x8d2a4c8a;
   0xfffa3942; 0x8771f681; 0x6d9d6122; 0xfde5380c;
   0xa4beea44; 0x4bdecfa9; 0xf6bb4b60; 0xbebfbc70;
   0x289b7ec6; 0xeaa127fa; 0xd4ef3085; 0x04881d05;
   0xd9d4d039; 0xe6db99e5; 0x1fa27cf8; 0xc4ac5665;
   0xf4292244; 0x432aff97; 0xab9423a7; 0xfc93a039;
   0x655b59c3; 0x8f0ccc92; 0xffeff47d; 0x85845dd1;
   0x6fa87e4f; 0xfe2ce6e0; 0xa3014314; 0x4e0811a1;
   0xf7537e82; 0xbd3af235; 0x2ad7d2bb; 0xeb86d391].

Definition bytes_of_string (s : string) : list Z :=
  map (fun c => Z.of_N (N_of_ascii c)) (list_ascii_of_string s).

(** [n] as [k] little-endian bytes. *)
Fixpoint le_bytes (k : nat) (n : Z) : list Z :=
  match k with
  | O => []
  | S k' => Z.land n 0xff :: le_bytes k' (Z.shiftr n 8)
  end.

Fixpoint le_word (bs : list Z) : Z :=
  match bs with
  | [] => 0
  | b :: bs' => Z.lor b (Z.shiftl (le_word bs') 8)
  end.

(** Message, then 0x80, then zeros up to 56 mod 64, then the bit length
    on 8 bytes. *)
Definition pad (msg : list Z) : list Z :=
  let len := Z.of_nat (length msg) in
  let zeros := Z.to_nat ((55 - len) mod 64) in
  msg ++ [0x80] ++ repeat 0 zeros ++ le_bytes 8 (8 * len).

Fixpoint words (n : nat) (bs : list Z) : list Z :=
  match n with
  | O => []
  | S n' => le_word (take 4 bs) :: words n' (drop 4 bs)
  end.

Fixpoint chunks (n : nat) (bs : list Z) : list (list Z) :=
  match n with
  | O => []
  | S n' => words 16 (take 64 bs) :: chunks n' (drop 64 bs)
  end.

Record state := State { sa : Z; sb : Z; sc : Z; sd : Z }.

Definition init : state :=
  State 0x67452301 0xefcdab89 0x98badcfe 0x10325476.

Definition step (m : list Z) (st : state) (i : Z) : state :=
  let '(State a b c d) := st in
  let '(f, g) :=
    if i <? 16 then (Z.lor (Z.land b c) (Z.land (not32 b) d), i)
    else if i <? 32 then
      (Z.lor (Z.land d b) (Z.land (not32 d) c), (5 * i + 1) mod 16)
    else if i <? 48 then (Z.lxor b (Z.lxor c d), (3 * i + 5) mod 16)
    else (Z.lxor c (Z.lor b (not32 d)), (7 * i) mod 16) in
  let n := Z.to_nat i in
  let f' := mask32 (f + a + nth n sines 0 + nth (Z.to_nat g) m 0) in
  State d (mask32 (b + rotl32 f' (nth n shifts 0))) b c.

Definition compress (st : state) (m : list Z) : state :=
  let st' := fold_left (step m) (map Z.of_nat (seq 0 64)) st in
  State (mask32 (sa st + sa st')) (mask32 (sb st + sb st'))
        (mask32 (sc st + sc st')) (mask32 (sd st + sd st')).

Definition digest (msg : list Z) : list Z :=
  let bs := pad msg in
  let st := fold_left compress (chunks (Nat.div (length bs) 64) bs) init in
  le_bytes 4 (sa st) ++ le_bytes 4 (sb st)
    ++ le_bytes 4 (sc st) ++ le_bytes 4 (sd st).

Definition hex_digit (n : Z) : ascii :=
  nth (Z.to_nat n) (list_ascii_of_string "0123456789abcdef") "0"%char.

Definition hex_of_bytes (bs : list Z) : string :=
  string_of_list_ascii
    (flat_map (fun b => [hex_digit (Z.shiftr b 4); hex_digit (Z.land b 15)]) bs).

Definition hexdigest (s : string) : string :=
  hex_of_bytes (digest (bytes_of_string s)).

End MD5.

(** ** Exceptions *)

Inductive exn :=
| AttributeError
| IndexError
| ZeroDivisionError
| OverflowError
| ValueError
| TypeError
| InvalidOperation
| ClientError.

Inductive result (A : Type) :=
| Ok (a : A)
| Raise (e : exn).
Arguments Ok {A} a.
Arguments Raise {A} e.

#[global] Instance result_ret : MRet result := fun A a => Ok a.
#[global] Instance result_bind : MBind result := fun A B f m =>
  match m with
  | Ok a => f a
  | Raise e => Raise e
  end.

(** [try: body except Exception: handler]. *)
Definition try_except {A} (body : result A) (handler : exn -> result A) : result A :=
  match body with
  | Ok a => Ok a
  | Raise e => handler e
  end.

(** ** Python values of the inbound event *)

#[warnings="-register-all"]
Inductive pyval :=
| PNone
| PBool (b : bool)
| PInt (z : Z)
| PStr (s : string)
| PList (l : list pyval)
| PDict (d : gmap string pyval).

(** [v.get(key, default)]; only a dict has [get]. *)
Definition py_get (v : pyval) (key : string) (dflt : pyval) : result pyval :=
  match v with
  | PDict d => Ok (default dflt (d !! key))
  | _ => Raise AttributeError
  end.

(** [v == s] for a string literal [s]. *)
Definition py_eq_str (v : pyval) (s : string) : bool :=
  match v with
  | PStr t => String.eqb t s
  | _ => false
  end.

(** [v.startswith(p)]; only a string has [startswith]. *)
Definition py_startswith (v : pyval) (p : string) : result bool :=
  match v with
  | PStr t => Ok (String.prefix p t)
  | _ => Raise AttributeError
  end.

(** [s.split(sep)] for a one-character separator: never empty. *)
Fixpoint split (sep : ascii) (s : string) : list string :=
  match s with
  | EmptyString => [EmptyString]
  | String c rest =>
      if Ascii.eqb c sep then EmptyString :: split sep rest
      else match split sep rest with
           | [] => [String c EmptyString]
           | w :: ws => String c w :: ws
           end
  end.

(** [l[-1]]. *)
Definition index_last {A} (l : list A) : result A :=
  match last l with
  | Some x => Ok x
  | None => Raise IndexError
  end.

(** [l[0]]. *)
Definition index_first {A} (l : list A) : result A :=
  match l with
  | x :: _ => Ok x
  | [] => Raise IndexError
  end.

(** ** Python numbers *)

Import Float64.

Inductive number :=
| NInt (z : Z)
| NFloat (x : float).

(** [a / b] on two integers: the correctly rounded quotient. *)
Definition int_truediv (a b : Z) : result float :=
  let raw z := match z with
               | Z0 => S754_zero false
               | Zpos p => S754_finite false p 0
               | Zneg p => S754_finite true p 0
               end in
  if b =? 0 then Raise ZeroDivisionError
  else match div (raw a) (raw b) with
       | S754_infinity _ => Raise OverflowError
       | q => Ok q
       end.

(** [x / n] for a float and an integer. *)
Definition float_truediv (x : float) (n : Z) : result float :=
  if n =? 0 then Raise ZeroDivisionError else Ok (div x (of_Z n)).

(** [int(x)]. *)
Definition py_int (x : float) : result Z :=
  match trunc x with
  | Some z => Ok z
  | None => match x with
            | S754_nan => Raise ValueError
            | _ => Raise OverflowError
            end
  end.

(** [sum(xs)] on floats: the start value 0, then the items from left to
    right. *)
Definition py_sum (xs : list float) : float :=
  fold_left add xs (of_Z 0).

(** [sum(1 for x in xs)]. *)
Definition py_count {A} (xs : list A) : Z :=
  fold_left (fun acc _ => acc + 1) xs 0.

(** [len(xs)]. *)
Definition len {A} (xs : list A) : Z := Z.of_nat (length xs).

(** ** Data model *)

Record User := mkUser {
  u_alias : string;
  u_name : string;
  u_job_title : string;
  u_staff_level : string;
  u_supervisor : string;
  u_region : string
}.

(** The dictionary [_get_user_info] returns. *)
Record UserInfo := mkUserInfo {
  i_user_alias : string;
  i_user_name : string;
  i_job_title : string;
  i_staff_level : string;
  i_supervisor : string
}.

(** An entry of [base_metrics]. *)
Record MetricDef := mkMetricDef {
  d_metric_name : string;
  d_display_name : string;
  d_annual_target : Z;
  d_metric_type : string
}.

Record Metric := mkMetric {
  metric_name : string;
  display_name : string;
  annual_target : number;
  metric_type : string;
  actual_value : number;
  attainment_percent : float
}.

(** A stored metric item: every key may be missing; a numeric attribute
    holds the float that [float(...)] makes of it. *)
Record MetricItem := mkMetricItem {
  it_metric_name : option string;
  it_display_name : option string;
  it_actual_value : option float;
  it_annual_target : option float;
  it_attainment_percent : option float;
  it_metric_type : option string
}.

(** [{**user_info, 'metrics': metrics}]. *)
Record Dashboard := mkDashboard {
  info : UserInfo;
  metrics : list Metric
}.

(** A team member dictionary; [overall_attainment] may be missing (the
    rows of the users table have no such key), and is a float when it is
    there, as in the members [_generate_sample_team] builds.  A row that
    holds another value there is a row of [Rows], further down. *)
Record TeamMember := mkTeamMember {
  tm_user_alias : string;
  tm_name : string;
  tm_job_title : string;
  overall_attainment : option float;
  metrics_count : Z;
  on_track_metrics : Z;
  at_risk_metrics : Z
}.

Record TeamSummary := mkTeamSummary {
  total_members : Z;
  avg_attainment : number;
  members_on_track : Z;
  members_at_risk : Z
}.

(** The argument of [json.dumps]. *)
Inductive payload :=
| UsersData (users : list User)
| DashboardData (d : Dashboard)
| TeamData (manager_alias : string) (team_summary : TeamSummary)
           (team_members : list TeamMember)
| ErrorData (error : string).

Inductive body_text :=
| EmptyText
| Dumps (data : payload).

Record Response := mkResponse {
  statusCode : Z;
  headers : gmap string string;
  body : body_text
}.

(** ** The store *)

(** What a scan or a query gives: it raises, or it returns a response
    whose [Items] key may be missing. *)
Inductive reply (A : Type) :=
| Fault (e : exn)
| Reply (items : option (list A)).
Arguments Fault {A} e.
Arguments Reply {A} items.

Record Store := mkStore {
  users_scan : reply User;
  metrics_query : string -> reply MetricItem;
  team_scan : string -> reply TeamMember
}.

(** [response = table.scan(...)] followed by [response.get('Items', [])]. *)
Definition get_items {A} (r : reply A) : result (list A) :=
  match r with
  | Fault e => Raise e
  | Reply items => Ok (default [] items)
  end.

(** ** Hexadecimal numerals *)

Definition hex_value (c : ascii) : option Z :=
  let n := Z.of_N (N_of_ascii c) in
  if (48 <=? n) && (n <=? 57) then Some (n - 48)
  else if (97 <=? n) && (n <=? 102) then Some (n - 87)
  else if (65 <=? n) && (n <=? 70) then Some (n - 55)
  else None.

(** [int(s, 16)] on a string of hexadecimal digits. *)
Definition int_hex (s : string) : result Z :=
  match s with
  | EmptyString => Raise ValueError
  | _ =>
      fold_left (fun acc c =>
                   a ← acc;
                   match hex_value c with
                   | Some d => Ok (16 * a + d)
                   | None => Raise ValueError
                   end)
                (list_ascii_of_string s) (Ok 0)
  end.

(** ** class DashboardAPI *)

Section DashboardAPI.

(** The built-in [hash] on strings (salted per process). *)
Variable hash : string -> Z.

(** [self.dynamodb]. *)
Variable dynamodb : Store.

Definition _success_response (data : payload) (hdrs : gmap string string) : Response :=
  {| statusCode := 200; headers := hdrs; body := Dumps data |}.

Definition _error_response (status_code : Z) (message : string)
    (hdrs : gmap string string) : Response :=
  {| statusCode := status_code; headers := hdrs;
     body := Dumps (ErrorData message) |}.

Definition _generate_sample_users : list User :=
  [ {| u_alias := "jsmith"; u_name := "John Smith";
       u_job_title := "Senior Solutions Architect"; u_staff_level := "L6";
       u_supervisor := "manager1"; u_region := "US East" |};
    {| u_alias := "mjohnson"; u_name := "Mary Johnson";
       u_job_title := "Principal Solutions Architect"; u_staff_level := "L7";
       u_supervisor := "manager1"; u_region := "US West" |};
    {| u_alias := "rbrown"; u_name := "Robert Brown";
       u_job_title := "Solutions Architect"; u_staff_level := "L5";
       u_supervisor := "manager2"; u_region := "US Central" |} ].

Definition _get_user_info (user_alias : string) : result UserInfo :=
  let users := _generate_sample_users in
  fallback ← index_first users;
  let user :=
    default fallback
      (List.find (fun u => String.eqb (u_alias u) user_alias) users) in
  mret {| i_user_alias := u_alias user; i_user_name := u_name user;
          i_job_title := u_job_title user;
          i_staff_level := u_staff_level user;
          i_supervisor := u_supervisor user |}.

(** The dictionary [base_metrics], in insertion order. *)
Definition base_metrics : list (string * MetricDef) :=
  [ ("revenue_target",
     {| d_metric_name := "revenue_target"; d_display_name := "Revenue Target";
        d_annual_target := 1000000; d_metric_type := "currency" |});
    ("customer_engagements",
     {| d_metric_name := "customer_engagements";
        d_display_name := "Customer Engagements";
        d_annual_target := 50; d_metric_type := "count" |});
    ("win_rate",
     {| d_metric_name := "win_rate"; d_display_name := "Win Rate";
        d_annual_target := 70; d_metric_type := "percentage" |}) ].

(** The body of the loop over [base_metrics.items()]. *)
Definition sample_metric (variation : float) (metric_def : MetricDef)
    : result Metric :=
  let target := d_annual_target metric_def in
  actual ← py_int (mul (of_Z target)
                       (add (decimal 75 2) (mul variation (decimal 5 1))));
  ratio ← int_truediv actual target;
  mret {| metric_name := d_metric_name metric_def;
          display_name := d_display_name metric_def;
          annual_target := NInt target;
          metric_type := d_metric_type metric_def;
          actual_value := NInt actual;
          attainment_percent := mul ratio (of_Z 100) |}.

(** An alias is held as the bytes of its UTF-8 encoding, which is what
    [user_alias.encode()] hands to MD5 and, for an ASCII alias, the alias
    itself.  A text that [encode] rejects, one with a lone surrogate, has
    no such bytes: it is not an alias here. *)
Definition _generate_user_dashboard (user_alias : string) : result Dashboard :=
  user_info ← _get_user_info user_alias;
  user_hash ← int_hex (substring 0 8 (MD5.hexdigest user_alias));
  variation ← int_truediv (user_hash mod 30) 100;
  metrics ← mapM (fun kv => sample_metric variation (snd kv)) base_metrics;
  mret {| info := user_info; metrics := metrics |}.

Definition _generate_sample_team (manager_alias : string) : list TeamMember :=
  let all_users := _generate_sample_users in
  map (fun user =>
         {| tm_user_alias := u_alias user; tm_name := u_name user;
            tm_job_title := u_job_title user;
            overall_attainment :=
              Some (add (of_Z 85) (of_Z (hash (u_alias user) mod 20)));
            metrics_count := 3; on_track_metrics := 2;
            at_risk_metrics := 1 |})
      (take 2 all_users).

(** [m.get('overall_attainment', 0)]. *)
Definition attainment_of (m : TeamMember) : float :=
  default (of_Z 0) (overall_attainment m).

(** On typed members, whose attainment is a float or missing: [+], [/],
    [>=] and [round] are those of floats.  [Rows._calculate_team_summary]
    is the function on untyped rows, with the dynamic typing of these
    operations. *)
Definition _calculate_team_summary (team_members : list TeamMember)
    : result TeamSummary :=
  match team_members with
  | [] => mret {| total_members := 0; avg_attainment := NInt 0;
                  members_on_track := 0; members_at_risk := 0 |}
  | _ =>
      avg_attainment ←
        float_truediv (py_sum (map attainment_of team_members))
                      (len team_members);
      let on_track :=
        py_count (List.filter (fun m => geb (attainment_of m) (of_Z 80))
                              team_members) in
      mret {| total_members := len team_members;
              avg_attainment := NFloat (round1 avg_attainment);
              members_on_track := on_track;
              members_at_risk := len team_members - on_track |}
  end.

Definition _format_metric (item : MetricItem) : Metric :=
  {| metric_name := default "" (it_metric_name item);
     display_name := default "" (it_display_name item);
     actual_value := NFloat (default (of_Z 0) (it_actual_value item));
     annual_target := NFloat (default (of_Z 0) (it_annual_target item));
     attainment_percent := default (of_Z 0) (it_attainment_percent item);
     metric_type := default "count" (it_metric_type item) |}.

Definition _get_users (hdrs : gmap string string) : result Response :=
  try_except
    (users ← try_except (get_items (users_scan dynamodb))
                        (fun db_error => Ok []);
     let users := match users with
                  | [] => _generate_sample_users
                  | _ => users
                  end in
     mret (_success_response (UsersData users) hdrs))
    (fun e => Ok (_error_response 500 "Failed to retrieve users" hdrs)).

(** The block of the source that answers from the store (lines 110 to
    118) is read with the nesting its statements call for: the
    dictionary and the [return] inside [if metrics_items].  [None] is
    falling through to the sample data. *)
Definition _get_user_dashboard (user_alias : string)
    (hdrs : gmap string string) : result Response :=
  try_except
    (answered ←
       try_except
         (metrics_items ← get_items (metrics_query dynamodb user_alias);
          match metrics_items with
          | [] => mret None
          | _ =>
              let metrics := map _format_metric metrics_items in
              user_info ← _get_user_info user_alias;
              let dashboard_data :=
                {| info := user_info; metrics := metrics |} in
              mret (Some (_success_response (DashboardData dashboard_data) hdrs))
          end)
         (fun db_error => Ok None);
     match answered with
     | Some response => mret response
     | None =>
         dashboard_data ← _generate_user_dashboard user_alias;
         mret (_success_response (DashboardData dashboard_data) hdrs)
     end)
    (fun e => Ok (_error_response 500 "Failed to retrieve dashboard data" hdrs)).

Definition _get_team_dashboard (manager_alias : string)
    (hdrs : gmap string string) : result Response :=
  try_except
    (team_members ← try_except (get_items (team_scan dynamodb manager_alias))
                               (fun _ => Ok []);
     let team_members := match team_members with
                         | [] => _generate_sample_team manager_alias
                         | _ => team_members
                         end in
     team_summary ← _calculate_team_summary team_members;
     mret (_success_response
             (TeamData manager_alias team_summary team_members) hdrs))
    (fun e => Ok (_error_response 500 "Failed to retrieve team data" hdrs)).

(** The CORS headers built on lines 44 to 49. *)
Definition cors_headers : gmap string string :=
  <["Content-Type" := "application/json"]>
  (<["Access-Control-Allow-Origin" := "*"]>
  (<["Access-Control-Allow-Methods" := "GET, POST, OPTIONS"]>
  (<["Access-Control-Allow-Headers" := "Content-Type, Authorization"]> ∅))).

(** Lines 40 and 41: what runs before [headers] is bound. *)
Definition read_request (event : pyval) : result (pyval * pyval) :=
  http_method ← py_get event "httpMethod" (PStr "GET");
  path ← py_get event "path" (PStr "");
  mret (http_method, path).

(** Lines 52 to 69: what runs once [headers] is bound. *)
Definition route (http_method path : pyval) (hdrs : gmap string string)
    : result Response :=
  if py_eq_str http_method "OPTIONS" then
    mret {| statusCode := 200; headers := hdrs; body := EmptyText |}
  else if py_eq_str path "/api/users" && py_eq_str http_method "GET" then
    _get_users hdrs
  else
    is_dashboard ← py_startswith path "/api/dashboard/";
    if is_dashboard && py_eq_str http_method "GET" then
      segments ← (match path with
                  | PStr p => Ok (split "/" p)
                  | _ => Raise AttributeError
                  end);
      user_alias ← index_last segments;
      _get_user_dashboard user_alias hdrs
    else
      is_team ← py_startswith path "/api/team-dashboard/";
      if is_team && py_eq_str http_method "GET" then
        segments ← (match path with
                    | PStr p => Ok (split "/" p)
                    | _ => Raise AttributeError
                    end);
        manager_alias ← index_last segments;
        _get_team_dashboard manager_alias hdrs
      else
        mret (_error_response 404 "Endpoint not found" hdrs).

(** [headers if 'headers' in locals() else {}]: a fault of
    [read_request] leaves [headers] unbound. *)
Definition lambda_handler (event : pyval) : Response :=
  match read_request event with
  | Raise e => _error_response 500 "Internal server error" ∅
  | Ok (http_method, path) =>
      let hdrs := cors_headers in
      match route http_method path hdrs with
      | Ok response => response
      | Raise e => _error_response 500 "Internal server error" hdrs
      end
  end.

End DashboardAPI.

(** ** The aggregator on the rows of a store

    A row of a store is a dictionary whose values are not typed: a number
    read through boto3 is a [decimal.Decimal], and an attribute may as well
    hold [None], a string or a collection.  [_calculate_team_summary] is
    embedded here on such rows, with the dynamic typing of [+], [/], [>=]
    and [round].  The arithmetic of the [decimal] module is a parameter,
    the class [DecimalArith]. *)

Module Rows.

(** The value of an attribute.  [AOther] stands for the values that
    support neither [+] with a number nor [>=] with an integer: bytes,
    lists, sets and dictionaries. *)
Inductive attr (Decimal : Type) :=
| ANone
| ABool (b : bool)
| AInt (z : Z)
| AFloat (x : float)
| ADecimal (d : Decimal)
| AStr (s : string)
| AOther.
Arguments ANone {Decimal}.
Arguments ABool {Decimal} b.
Arguments AInt {Decimal} z.
Arguments AFloat {Decimal} x.
Arguments ADecimal {Decimal} d.
Arguments AStr {Decimal} s.
Arguments AOther {Decimal}.

(** A running total, a quotient or a rounded value. *)
Inductive num (Decimal : Type) :=
| NumInt (z : Z)
| NumFloat (x : float)
| NumDecimal (d : Decimal).
Arguments NumInt {Decimal} z.
Arguments NumFloat {Decimal} x.
Arguments NumDecimal {Decimal} d.

Record Summary (Decimal : Type) := mkSummary {
  total_members : Z;
  avg_attainment : num Decimal;
  members_on_track : Z;
  members_at_risk : Z
}.
Arguments mkSummary {Decimal}.
Arguments total_members {Decimal}.
Arguments avg_attainment {Decimal}.
Arguments members_on_track {Decimal}.
Arguments members_at_risk {Decimal}.

(** [float(z)] for an integer operand of a float operation. *)
Definition float_of_int (z : Z) : result float :=
  match of_Z z with
  | S754_infinity _ => Raise OverflowError
  | x => Ok x
  end.

(** The arithmetic of the [decimal] module in its current context:
    [Decimal(z)], [d1 + d2], [d / n], [d >= n] and [round(d, 1)]; each
    operation may raise a signal the context traps. *)
Class DecimalArith (Decimal : Type) := {
  dec_of_int : Z -> Decimal;
  dec_add : Decimal -> Decimal -> result Decimal;
  dec_truediv : Decimal -> Z -> result Decimal;
  dec_ge : Decimal -> Z -> result bool;
  dec_round1 : Decimal -> result Decimal
}.

Section Aggregator.

Context {Decimal : Type} {arith : DecimalArith Decimal}.

(** [total + z] for an integer [z]. *)
Definition add_int (total : num Decimal) (z : Z) : result (num Decimal) :=
  match total with
  | NumInt t => Ok (NumInt (t + z))
  | NumFloat t => z' ← float_of_int z; Ok (NumFloat (add t z'))
  | NumDecimal t => d ← dec_add t (dec_of_int z); Ok (NumDecimal d)
  end.

(** [total + v]: a bool counts as an integer; a float and a Decimal do not
    mix; anything that is not a number raises. *)
Definition py_add (total : num Decimal) (v : attr Decimal)
    : result (num Decimal) :=
  match v with
  | ABool b => add_int total (Z.b2z b)
  | AInt z => add_int total z
  | AFloat x =>
      match total with
      | NumInt t => t' ← float_of_int t; Ok (NumFloat (add t' x))
      | NumFloat t => Ok (NumFloat (add t x))
      | NumDecimal _ => Raise TypeError
      end
  | ADecimal d =>
      match total with
      | NumInt t => r ← dec_add (dec_of_int t) d; Ok (NumDecimal r)
      | NumFloat _ => Raise TypeError
      | NumDecimal t => r ← dec_add t d; Ok (NumDecimal r)
      end
  | ANone | AStr _ | AOther => Raise TypeError
  end.

(** [sum(vs)]: the start value 0, then the items from left to right. *)
Fixpoint sum_from (total : num Decimal) (vs : list (attr Decimal))
    : result (num Decimal) :=
  match vs with
  | [] => Ok total
  | v :: vs' => total' ← py_add total v; sum_from total' vs'
  end.

(** [total / n] for the integer [n]. *)
Definition truediv (total : num Decimal) (n : Z) : result (num Decimal) :=
  match total with
  | NumInt t => q ← int_truediv t n; Ok (NumFloat q)
  | NumFloat t => q ← float_truediv t n; Ok (NumFloat q)
  | NumDecimal t => q ← dec_truediv t n; Ok (NumDecimal q)
  end.

(** [v >= 80]. *)
Definition ge_80 (v : attr Decimal) : result bool :=
  match v with
  | ABool b => Ok (80 <=? Z.b2z b)
  | AInt z => Ok (80 <=? z)
  | AFloat x => Ok (geb x (of_Z 80))
  | ADecimal d => dec_ge d 80
  | ANone | AStr _ | AOther => Raise TypeError
  end.

(** [sum(1 for v in vs if v >= 80)]. *)
Fixpoint count_on_track (vs : list (attr Decimal)) : result Z :=
  match vs with
  | [] => Ok 0
  | v :: vs' =>
      good ← ge_80 v;
      rest ← count_on_track vs';
      Ok (if (good : bool) then 1 + rest else rest)
  end.

(** [round(avg, 1)]. *)
Definition py_round1 (avg : num Decimal) : result (num Decimal) :=
  match avg with
  | NumInt z => Ok (NumInt z)
  | NumFloat x => Ok (NumFloat (round1 x))
  | NumDecimal d => r ← dec_round1 d; Ok (NumDecimal r)
  end.

(** [m.get('overall_attainment', 0)]. *)
Definition attainment_of (m : gmap string (attr Decimal)) : attr Decimal :=
  default (AInt 0) (m !! "overall_attainment").

Definition _calculate_team_summary (team_members : list (gmap string (attr Decimal)))
    : result (Summary Decimal) :=
  match team_members with
  | [] => Ok {| total_members := 0; avg_attainment := NumInt 0;
                members_on_track := 0; members_at_risk := 0 |}
  | _ =>
      total ← sum_from (NumInt 0) (map attainment_of team_members);
      avg ← truediv total (len team_members);
      on_track ← count_on_track (map attainment_of team_members);
      rounded ← py_round1 avg;
      Ok {| total_members := len team_members;
            avg_attainment := rounded;
            members_on_track := on_track;
            members_at_risk := len team_members - on_track |}
  end.

End Aggregator.


End Rows.

(** ** Requests and stores used in the statements *)

(** The event of a request with the given method and path. *)
Definition request (method path : string) : pyval :=
  PDict (<["httpMethod" := PStr method]> (<["path" := PStr path]> ∅)).

(** A store none of whose operations answers. *)
Definition unreachable (e : exn) : Store :=
  {| users_scan := Fault e;
     metrics_query := fun _ => Fault e;
     team_scan := fun _ => Fault e |}.

(** A scan that brings no user: it raises, or it has no items. *)
Definition no_items {A} (r : reply A) : bool :=
  match r with
  | Fault _ | Reply None | Reply (Some []) => true
  | Reply (Some (_ :: _)) => false
  end.

(** The three routes the source tests for, in one predicate. *)
Definition matches_route (method path : string) : bool :=
  String.eqb method "GET" &&
  (String.eqb path "/api/users"
   || String.prefix "/api/dashboard/" path
   || String.prefix "/api/team-dashboard/" path).

(** A team member with the given attainment, or with none. *)
Definition member_with (attainment : option float) : TeamMember :=
  {| tm_user_alias := "x"; tm_name := "X"; tm_job_title := "";
     overall_attainment := attainment;
     metrics_count := 3; on_track_metrics := 2; at_risk_metrics := 1 |}.

(** A stored metric whose attainment is not the one its values give. *)
Definition stale_item : MetricItem :=
  {| it_metric_name := Some "win_rate"; it_display_name := Some "Win Rate";
     it_actual_value := Some (of_Z 50); it_annual_target := Some (of_Z 100);
     it_attainment_percent := Some (of_Z 10);
     it_metric_type := Some "percentage" |}.

(** ** The aggregator, as the specification words it *)

Definition on_track (m : TeamMember) : bool :=
  geb (attainment_of m) (of_Z 80).

(** Arithmetic mean of the members' attainment. *)
Definition mean_attainment (team : list TeamMember) : float :=
  div (py_sum (map attainment_of team)) (of_Z (Z.of_nat (length team))).

Definition team_summary_spec (team : list TeamMember) : TeamSummary :=
  match team with
  | [] => {| total_members := 0; avg_attainment := NInt 0;
             members_on_track := 0; members_at_risk := 0 |}
  | _ =>
      let total := Z.of_nat (length team) in
      let good := Z.of_nat (length (List.filter on_track team)) in
      {| total_members := total;
         avg_attainment := NFloat (round1 (mean_attainment team));
         members_on_track := good;
         members_at_risk := total - good |}
  end.

(** ** Decidable equality of the values compared in the statements *)

#[global] Instance spec_float_eq_dec : EqDecision spec_float.
Proof. solve_decision. Defined.

#[global] Instance number_eq_dec : EqDecision number.
Proof. solve_decision. Defined.

(** ** The sample data, as the specification words it *)

(** The five entries [_get_user_info] copies out of a user. *)
Definition info_of (u : User) : UserInfo :=
  {| i_user_alias := u_alias u; i_user_name := u_name u;
     i_job_title := u_job_title u; i_staff_level := u_staff_level u;
     i_supervisor := u_supervisor u |}.

(** A member as [_generate_sample_team] shapes it, with its attainment
    given as an integer. *)
Definition sample_member (u : User) (attainment : Z) : TeamMember :=
  {| tm_user_alias := u_alias u; tm_name := u_name u;
     tm_job_title := u_job_title u;
     overall_attainment := Some (of_Z attainment);
     metrics_count := 3; on_track_metrics := 2; at_risk_metrics := 1 |}.

Definition in_range (lo hi : Z) (x : float) : bool :=
  leb (of_Z lo) x && leb x (of_Z hi).

(** The local [user_hash] of [_generate_user_dashboard]. *)
Definition user_hash (user_alias : string) : result Z :=
  int_hex (substring 0 8 (MD5.hexdigest user_alias)).

(** The metrics [_generate_user_dashboard] builds when [user_hash % 30]
    is [k]. *)
Definition sample_metrics (k : Z) : result (list Metric) :=
  variation ← int_truediv k 100;
  mapM (fun kv => sample_metric variation (snd kv)) base_metrics.

(** [float(n)] for the numbers of a metric. *)
Definition to_float (n : number) : float :=
  match n with
  | NInt z => of_Z z
  | NFloat x => x
  end.

(** [actual_value / annual_target * 100]. *)
Definition expected_attainment (m : Metric) : float :=
  mul (div (to_float (actual_value m)) (to_float (annual_target m))) (of_Z 100).

(** Equality up to a relative tolerance of 1e-9. *)
Definition close (x y : float) : bool :=
  leb (abs (sub x y)) (mul (decimal 1 9) (abs y)).

(** The attainment of the metric is the one its two values give, unless
    the target is zero. *)
Definition attainment_consistent (m : Metric) : bool :=
  is_zero (to_float (annual_target m))
  || close (attainment_percent m) (expected_attainment m).

Definition band (lo hi : Z) (m : Metric) : bool :=
  in_range lo hi (attainment_percent m).

(** What the three sample metrics are when [user_hash % 30] is [k]: the
    three templates in order, the actual value the floor of
    [target * (150 + k) / 200], that is of [target * (0.75 + k/100 * 0.5)],
    and the attainment between 74 (75 from [k = 2] on) and 90. *)
Definition sample_metrics_ok (k : Z) (ms : list Metric) : bool :=
  bool_decide (map metric_name ms =
               ["revenue_target"; "customer_engagements"; "win_rate"])
  && bool_decide (map annual_target ms = [NInt 1000000; NInt 50; NInt 70])
  && bool_decide (map actual_value ms =
                  map (fun target => NInt (target * (150 + k) / 200))
                      [1000000; 50; 70])
  && forallb (band (if k <? 2 then 74 else 75) 90) ms.

Definition attainment_exact (m : Metric) : bool :=
  bool_decide (attainment_percent m = expected_attainment m)
  && attainment_consistent m.

(** ** Further notions used in the statements *)

(** The users GET /api/users lists: those of the store when it brings
    some, the sample users otherwise. *)
Definition listed_users (db : Store) : list User :=
  match users_scan db with
  | Reply (Some (u :: us)) => u :: us
  | _ => _generate_sample_users
  end.

(** The team of a manager: the rows of the store when it brings some, the
    sample team otherwise. *)
Definition team_of (hash : string -> Z) (db : Store) (manager_alias : string)
    : list TeamMember :=
  match team_scan db manager_alias with
  | Reply (Some (t :: ts)) => t :: ts
  | _ => _generate_sample_team hash manager_alias
  end.

(** The string has no "/". *)
Definition no_slash (s : string) : bool :=
  forallb (fun c => negb (Ascii.eqb c "/")) (list_ascii_of_string s).

Definition is_str (v : pyval) : bool :=
  match v with
  | PStr _ => true
  | _ => false
  end.

(** The event reduced to the two keys the handler reads, each with the
    default the handler gives it. *)
Definition normalised (d : gmap string pyval) : pyval :=
  PDict (<["httpMethod" := default (PStr "GET") (d !! "httpMethod")]>
         (<["path" := default (PStr "") (d !! "path")]> ∅)).

(** The alias the dashboard of [user_alias] is made out to: the alias
    itself when it is a sample user, jsmith otherwise. *)
Definition shown_alias (user_alias : string) : string :=
  if bool_decide (user_alias ∈ map u_alias _generate_sample_users)
  then user_alias else "jsmith".

(** The mean of the two attainments 85 + k1 and 85 + k2, with one
    decimal. *)
Definition pair_mean (k1 k2 : Z) : float :=
  decimal (5 * (170 + k1 + k2)) 1.

Definition pair_ok (k1 k2 : Z) : bool :=
  geb (of_Z (85 + k1)) (of_Z 80)
  && bool_decide (round1 (div (py_sum [of_Z (85 + k1); of_Z (85 + k2)]) (of_Z 2))
                  = pair_mean k1 k2)
  && in_range 85 104 (pair_mean k1 k2).

(** A nibble survives the hexadecimal digit, and a byte is its two
    nibbles. *)
Definition nibble_ok (n : Z) : bool :=
  match hex_value (MD5.hex_digit n) with
  | Some d => d =? n
  | None => false
  end.

Definition byte_ok (b : Z) : bool :=
  nibble_ok (Z.shiftr b 4) && nibble_ok (Z.land b 15)
  && (16 * Z.shiftr b 4 + Z.land b 15 =? b).

(** The float is a positive number or the positive infinity. *)
Definition positive_value (x : spec_float) : bool :=
  match x with
  | S754_finite false _ _ | S754_infinity false => true
  | _ => false
  end.

(** Every character of the string is ASCII, so that the string is a text
    [str.encode] accepts and is its own UTF-8 encoding. *)
Definition is_ascii (s : string) : bool :=
  forallb (fun c => Z.of_N (N_of_ascii c) <? 128) (list_ascii_of_string s).

(** The scan brings no row, or rows none of which carries an attainment
    (the rows of the users table). *)
Definition without_attainment (r : reply TeamMember) : bool :=
  match r with
  | Reply (Some rows) =>
      forallb (fun m => match overall_attainment m with
                        | None => true
                        | Some _ => false
                        end) rows
  | _ => true
  end.

(** ** The summary of whole attainments, in exact arithmetic *)

(** The binary64 of an integer, as the Standard Library rounds it. *)
Definition whole_float (z : Z) : spec_float :=
  binary_normalize 53 1024 z 0 false.

(** A row of the users table with the attainment [v]. *)
Definition row_with {Decimal} (v : Rows.attr Decimal)
    : gmap string (Rows.attr Decimal) :=
  <["user_alias" := Rows.AStr "x"]> {["overall_attainment" := v]}.



(** [k] is the integer nearest to [n / d], and the even one of the two
    when [n / d] lies half way ([0 < d]). *)
Definition nearest_integer (n d k : Z) : Prop :=
  2 * Z.abs (n - k * d) <= d /\
  (2 * Z.abs (n - k * d) = d -> Z.even k = true).

(** The binary64 nearest to [k / 10], with the sign [s]. *)
Definition tenth (s : bool) (k : Z) : spec_float :=
  match k with
  | Zpos t => SFdiv 53 1024 (S754_finite s t 0) (whole_float 10)
  | _ => S754_zero s
  end.

(** [r] is [q] rounded to one decimal place: the value of a finite [q],
    mantissa [m] and exponent [e], is [m * 2 ^ e], and [r] is the float of
    the tenth nearest to it; an infinity and a NaN are kept. *)
Definition nearest_tenth (q r : spec_float) : Prop :=
  match q with
  | S754_finite s m e =>
      exists k : Z,
        nearest_integer (10 * Zpos m * 2 ^ Z.max e 0) (2 ^ Z.max (- e) 0) k /\
        r = tenth s k
  | _ => r = q
  end.



(** The floats 0.25 and 0.25 + 2^-54. *)
Definition quarter : spec_float := S754_finite false (2 ^ 52) (-54).
Definition above_quarter : spec_float := S754_finite false (2 ^ 52 + 1) (-54).

(** The row holds the attainment of the member: the same float, or
    none. *)
Definition same_attainment {Decimal} (row : gmap string (Rows.attr Decimal))
    (m : TeamMember) : Prop :=
  row !! "overall_attainment" = Rows.AFloat <$> overall_attainment m.

(** A summary of typed members, as a summary of rows. *)
Definition summary_of {Decimal} (s : TeamSummary) : Rows.Summary Decimal :=
  {| Rows.total_members := total_members s;
     Rows.avg_attainment := match avg_attainment s with
                            | NInt z => Rows.NumInt z
                            | NFloat x => Rows.NumFloat x
                            end;
     Rows.members_on_track := members_on_track s;
     Rows.members_at_risk := members_at_risk s |}.


(** * Properties *)

Ltac elem_of_list :=
  repeat first [apply list_elem_of_here | apply list_elem_of_further].

(** ** MD5 *)

(** The test suite of RFC 1321, section A.5. *)
Example md5_empty : MD5.hexdigest "" = "d41d8cd98f00b204e9800998ecf8427e".
Proof. vm_compute. reflexivity. Qed.

Example md5_abc : MD5.hexdigest "abc" = "900150983cd24fb0d6963f7d28e17f72".
Proof. vm_compute. reflexivity. Qed.

Example md5_message_digest :
  MD5.hexdigest "message digest" = "f96b697d7cb7938d525a2f31aaf161d0".
Proof. vm_compute. reflexivity. Qed.

Example md5_two_blocks :
  MD5.hexdigest
    "12345678901234567890123456789012345678901234567890123456789012345678901234567890"
  = "57edf4a22be3c955ac49da2e2107b67a".
Proof. vm_compute. reflexivity. Qed.

(** ** Team summary *)

Lemma py_count_from {A} (xs : list A) (a : Z) :
  fold_left (fun acc _ => acc + 1) xs a = a + Z.of_nat (length xs).
Proof.
  revert a. induction xs as [|x xs IH]; intros a; simpl.
  - lia.
  - rewrite IH. lia.
Qed.

Lemma py_count_length {A} (xs : list A) : py_count xs = Z.of_nat (length xs).
Proof. unfold py_count. rewrite py_count_from. lia. Qed.

Lemma float_truediv_len {A} (x : float) (a : A) (xs : list A) :
  float_truediv x (len (a :: xs)) = Ok (div x (of_Z (len (a :: xs)))).
Proof.
  unfold float_truediv, len.
  destruct (Z.eqb_spec (Z.of_nat (length (a :: xs))) 0) as [E|_]; [|reflexivity].
  simpl in E. lia.
Qed.

(** On members whose attainment is a float or missing, the summary of a
    non-empty list is [team_summary_spec], the source's expressions taken
    one by one; the properties of these expressions are stated on the rows
    of a store, further down. *)
Lemma calculate_team_summary_cons (m : TeamMember) (team : list TeamMember) :
  _calculate_team_summary (m :: team) = Ok (team_summary_spec (m :: team)).
Proof.
  unfold _calculate_team_summary.
  rewrite float_truediv_len. cbn [mbind result_bind mret result_ret].
  rewrite py_count_length. reflexivity.
Qed.

Lemma sample_team_summary (hash : string -> Z) (manager_alias : string) :
  _calculate_team_summary (_generate_sample_team hash manager_alias) =
    Ok (team_summary_spec (_generate_sample_team hash manager_alias)).
Proof. apply calculate_team_summary_cons. Qed.

(** 85, 86 and 86: the mean 85.66... is reported as 85.7. *)
Example team_summary_of_three :
  _calculate_team_summary
    [member_with (Some (of_Z 85)); member_with (Some (of_Z 86));
     member_with (Some (of_Z 86))] =
  Ok {| total_members := 3; avg_attainment := NFloat (decimal 857 1);
        members_on_track := 3; members_at_risk := 0 |}.
Proof. vm_compute. reflexivity. Qed.

(** A member without attainment counts for 0 and is at risk. *)
Example team_summary_missing_attainment :
  _calculate_team_summary [member_with (Some (of_Z 90)); member_with None] =
  Ok {| total_members := 2; avg_attainment := NFloat (of_Z 45);
        members_on_track := 1; members_at_risk := 1 |}.
Proof. vm_compute. reflexivity. Qed.

(** ** Sample users *)

Lemma sample_aliases :
  map u_alias _generate_sample_users = ["jsmith"; "mjohnson"; "rbrown"].
Proof. reflexivity. Qed.

Lemma sample_aliases_distinct : NoDup (map u_alias _generate_sample_users).
Proof.
  apply (bool_decide_unpack _). vm_compute. reflexivity.
Qed.

(** C7. [_get_user_info] returns the data of the sample user whose alias
    is the one asked for; for any other alias, the empty one included, it
    returns the data of the first sample user, jsmith, and no error. *)
Theorem get_user_info_lookup (user_alias : string) :
  exists u : User,
    _get_user_info user_alias = Ok (info_of u) /\
    ((user_alias ∈ map u_alias _generate_sample_users /\
      u ∈ _generate_sample_users /\ u_alias u = user_alias)
     \/
     ((user_alias ∉ map u_alias _generate_sample_users) /\
      _generate_sample_users !! 0%nat = Some u /\ u_alias u = "jsmith")).
Proof.
  unfold _get_user_info.
  cbn [index_first _generate_sample_users mbind result_bind mret result_ret
       List.find u_alias].
  destruct (String.eqb_spec "jsmith" user_alias) as [<-|N1].
  { eexists. split; [reflexivity|]. left. cbn. repeat split; elem_of_list. }
  destruct (String.eqb_spec "mjohnson" user_alias) as [<-|N2].
  { eexists. split; [reflexivity|]. left. cbn. repeat split; elem_of_list. }
  destruct (String.eqb_spec "rbrown" user_alias) as [<-|N3].
  { eexists. split; [reflexivity|]. left. cbn. repeat split; elem_of_list. }
  eexists. split; [reflexivity|]. right. cbn. split; [|split; reflexivity].
  rewrite !not_elem_of_cons. repeat split; try congruence. apply not_elem_of_nil.
Qed.

(** ** The router *)

Lemma read_request_request (method path : string) :
  read_request (request method path) = Ok (PStr method, PStr path).
Proof. vm_compute. reflexivity. Qed.

Lemma cors_headers_entries :
  map_to_list cors_headers ≡ₚ
    [("Content-Type", "application/json");
     ("Access-Control-Allow-Origin", "*");
     ("Access-Control-Allow-Methods", "GET, POST, OPTIONS");
     ("Access-Control-Allow-Headers", "Content-Type, Authorization")].
Proof.
  unfold cors_headers.
  rewrite !map_to_list_insert by (vm_compute; reflexivity).
  rewrite map_to_list_empty. reflexivity.
Qed.

Section Handlers.

Variable hash : string -> Z.
Variable db : Store.
Variable hdrs : gmap string string.

Lemma get_users_headers r : _get_users db hdrs = Ok r -> headers r = hdrs.
Proof.
  unfold _get_users.
  destruct (users_scan db) as [e|[[|u us]|]]; cbn; intros [= <-]; reflexivity.
Qed.

Lemma get_user_dashboard_headers a r :
  _get_user_dashboard db a hdrs = Ok r -> headers r = hdrs.
Proof.
  unfold _get_user_dashboard.
  generalize (_generate_user_dashboard a) (_get_user_info a).
  intros generated looked_up.
  destruct (metrics_query db a) as [e|[[|i items]|]], generated, looked_up;
    cbn; intros [= <-]; reflexivity.
Qed.

Lemma get_team_dashboard_headers m r :
  _get_team_dashboard hash db m hdrs = Ok r -> headers r = hdrs.
Proof.
  unfold _get_team_dashboard.
  destruct (team_scan db m) as [e|[[|t team]|]];
    cbn [get_items try_except mbind result_bind default];
    rewrite ?sample_team_summary, ?calculate_team_summary_cons;
    cbn; intros [= <-]; reflexivity.
Qed.

Lemma route_headers http_method path r :
  route hash db http_method path hdrs = Ok r -> headers r = hdrs.
Proof.
  unfold route.
  destruct (py_eq_str http_method "OPTIONS").
  { cbn. intros [= <-]. reflexivity. }
  destruct (py_eq_str path "/api/users" && py_eq_str http_method "GET").
  { apply get_users_headers. }
  destruct path as [| | |p| |]; cbn [py_startswith mbind result_bind];
    try discriminate.
  destruct (String.prefix "/api/dashboard/" p && py_eq_str http_method "GET").
  { destruct (index_last (split "/" p)) as [a|e]; cbn; [|discriminate].
    apply get_user_dashboard_headers. }
  destruct (String.prefix "/api/team-dashboard/" p && py_eq_str http_method "GET").
  { destruct (index_last (split "/" p)) as [a|e]; cbn; [|discriminate].
    apply get_team_dashboard_headers. }
  cbn. intros [= <-]. reflexivity.
Qed.

End Handlers.

(** C3, as amended. A response to an event that is a dictionary (a
    success, a 404 or a 500) carries exactly the CORS headers; an event
    that is not a dictionary fails before the headers are built and is
    answered by the 500 response with no header at all. *)
Theorem lambda_handler_headers (hash : string -> Z) (db : Store) (event : pyval) :
  match event with
  | PDict _ => headers (lambda_handler hash db event) = cors_headers
  | _ => lambda_handler hash db event =
           {| statusCode := 500; headers := ∅;
              body := Dumps (ErrorData "Internal server error") |}
  end.
Proof.
  destruct event as [| | | | |d]; try reflexivity.
  unfold lambda_handler, read_request.
  cbn [py_get mbind result_bind mret result_ret].
  destruct (route hash db _ _ cors_headers) as [r|e] eqn:E.
  - eapply route_headers, E.
  - reflexivity.
Qed.

(** C3, as stated, fails: the event [None] is answered with status 500
    and an empty header map, so none of the CORS headers is there. *)
Lemma lambda_handler_none_without_cors :
  let r := lambda_handler (fun _ => 0) (unreachable ClientError) PNone in
  statusCode r = 500 /\
  body r = Dumps (ErrorData "Internal server error") /\
  headers r !! "Access-Control-Allow-Origin" = None /\
  ~ (cors_headers ⊆ headers r).
Proof.
  cbn. repeat split.
  intros Hsub.
  pose proof (map_subseteq_spec cors_headers (∅ : gmap string string)) as [Hspec _].
  specialize (Hspec Hsub "Content-Type" "application/json").
  assert (Hin : cors_headers !! "Content-Type" = Some "application/json")
    by (vm_compute; reflexivity).
  specialize (Hspec Hin). rewrite lookup_empty in Hspec. discriminate.
Qed.

Example lambda_handler_path_not_a_string :
  lambda_handler (fun _ => 0) (unreachable ClientError)
    (PDict (<["path" := PInt 7]> ∅)) =
  {| statusCode := 500; headers := cors_headers;
     body := Dumps (ErrorData "Internal server error") |}.
Proof. vm_compute. reflexivity. Qed.

Example lambda_handler_options :
  lambda_handler (fun _ => 0) (unreachable ClientError)
    (request "OPTIONS" "/anything") =
  {| statusCode := 200; headers := cors_headers; body := EmptyText |}.
Proof. vm_compute. reflexivity. Qed.

(** C6. With a store that cannot be reached, or whose scan brings no
    item, GET /api/users is answered 200 with the three sample users, in
    the order jsmith, mjohnson, rbrown, each of them a full user record. *)
Theorem get_users_sample (hash : string -> Z) (db : Store)
    (Hnone : no_items (users_scan db) = true) :
  lambda_handler hash db (request "GET" "/api/users") =
    {| statusCode := 200; headers := cors_headers;
       body := Dumps (UsersData _generate_sample_users) |} /\
  map u_alias _generate_sample_users = ["jsmith"; "mjohnson"; "rbrown"] /\
  _generate_sample_users =
    [ mkUser "jsmith" "John Smith" "Senior Solutions Architect" "L6"
             "manager1" "US East";
      mkUser "mjohnson" "Mary Johnson" "Principal Solutions Architect" "L7"
             "manager1" "US West";
      mkUser "rbrown" "Robert Brown" "Solutions Architect" "L5"
             "manager2" "US Central" ].
Proof.
  split; [|split; reflexivity].
  unfold lambda_handler. rewrite read_request_request.
  unfold route. cbn [py_eq_str].
  change (String.eqb "GET" "OPTIONS") with false.
  change (String.eqb "/api/users" "/api/users" && String.eqb "GET" "GET") with true.
  cbv iota. unfold _get_users.
  destruct (users_scan db) as [e|[[|u us]|]]; try discriminate; reflexivity.
Qed.

Lemma get_users_sample_witness :
  no_items (users_scan (unreachable ClientError)) = true /\
  lambda_handler (fun _ => 0) (unreachable ClientError)
    (request "GET" "/api/users") =
    {| statusCode := 200; headers := cors_headers;
       body := Dumps (UsersData _generate_sample_users) |}.
Proof.
  split; [reflexivity|].
  apply (get_users_sample (fun _ => 0) (unreachable ClientError)).
  reflexivity.
Defined.

(** C8. A request whose method is not OPTIONS and which is none of GET
    /api/users, GET /api/dashboard/..., GET /api/team-dashboard/... is
    answered 404 with the error "Endpoint not found". *)
Theorem lambda_handler_not_found (hash : string -> Z) (db : Store)
    (method path : string)
    (Hmethod : method <> "OPTIONS")
    (Hroute : matches_route method path = false) :
  lambda_handler hash db (request method path) =
    {| statusCode := 404; headers := cors_headers;
       body := Dumps (ErrorData "Endpoint not found") |}.
Proof.
  unfold lambda_handler. rewrite read_request_request.
  unfold route, matches_route in *. cbn [py_eq_str py_startswith].
  destruct (String.eqb_spec method "OPTIONS") as [->|_]; [congruence|].
  cbn [mbind result_bind].
  destruct (String.eqb method "GET"), (String.eqb path "/api/users"),
    (String.prefix "/api/dashboard/" path),
    (String.prefix "/api/team-dashboard/" path);
    cbn in Hroute; try discriminate; reflexivity.
Qed.

Lemma lambda_handler_not_found_witness :
  "GET" <> "OPTIONS" /\
  matches_route "GET" "/api/unknown" = false /\
  lambda_handler (fun _ => 0) (unreachable ClientError)
    (request "GET" "/api/unknown") =
    {| statusCode := 404; headers := cors_headers;
       body := Dumps (ErrorData "Endpoint not found") |}.
Proof.
  split; [discriminate|]. split; [reflexivity|].
  apply (lambda_handler_not_found (fun _ => 0) (unreachable ClientError)
           "GET" "/api/unknown").
  - discriminate.
  - reflexivity.
Defined.

Example post_is_not_routed :
  Forall (fun path =>
            lambda_handler (fun _ => 0) (unreachable ClientError)
              (request "POST" path) =
            {| statusCode := 404; headers := cors_headers;
               body := Dumps (ErrorData "Endpoint not found") |})
         ["/api/users"; "/api/dashboard/jsmith"; "/api/team-dashboard/manager1"].
Proof. repeat constructor. Qed.

(** ** Checking a property of every residue *)

Lemma forall_below (n : nat) (P : Z -> bool) :
  forallb P (map Z.of_nat (seq 0 n)) = true ->
  forall k : Z, 0 <= k < Z.of_nat n -> P k = true.
Proof.
  intros Hall k Hk.
  rewrite forallb_forall in Hall. apply Hall.
  apply in_map_iff. exists (Z.to_nat k). split; [lia|].
  apply in_seq. lia.
Qed.

(** ** Sample team *)

Lemma sample_attainment_exact (h : Z) :
  add (of_Z 85) (of_Z (h mod 20)) = of_Z (85 + h mod 20) /\
  in_range 85 104 (of_Z (85 + h mod 20)) = true.
Proof.
  pose proof (Z.mod_pos_bound h 20 eq_refl) as Hk.
  revert Hk. generalize (h mod 20). intros k Hk.
  pose proof (forall_below 20
    (fun k => bool_decide (add (of_Z 85) (of_Z k) = of_Z (85 + k))
              && in_range 85 104 (of_Z (85 + k)))) as Hcheck.
  specialize (Hcheck ltac:(vm_compute; reflexivity) k Hk).
  apply andb_prop in Hcheck as [Heq Hrange].
  split; [exact (proj1 (bool_decide_eq_true _) Heq) | exact Hrange].
Qed.

(** C5. Whatever the manager, the sample team is the first two sample
    users, jsmith and mjohnson, as team members with three metrics, two on
    track and one at risk, and the attainment 85 + (hash(alias) mod 20),
    between 85 and 104; GET /api/team-dashboard/manager1 on a store that
    cannot be reached is answered 200 with a summary of two members. *)
Theorem generate_sample_team_spec (hash : string -> Z) (manager_alias : string) :
  let a1 := 85 + hash "jsmith" mod 20 in
  let a2 := 85 + hash "mjohnson" mod 20 in
  _generate_sample_team hash manager_alias =
    [ sample_member (mkUser "jsmith" "John Smith" "Senior Solutions Architect"
                            "L6" "manager1" "US East") a1;
      sample_member (mkUser "mjohnson" "Mary Johnson"
                            "Principal Solutions Architect" "L7" "manager1"
                            "US West") a2 ] /\
  85 <= a1 <= 104 /\ 85 <= a2 <= 104 /\
  in_range 85 104 (of_Z a1) = true /\ in_range 85 104 (of_Z a2) = true /\
  (forall other : string,
     _generate_sample_team hash other = _generate_sample_team hash manager_alias) /\
  (forall e : exn,
     let team := _generate_sample_team hash "manager1" in
     lambda_handler hash (unreachable e) (request "GET" "/api/team-dashboard/manager1") =
       {| statusCode := 200; headers := cors_headers;
          body := Dumps (TeamData "manager1" (team_summary_spec team) team) |} /\
     total_members (team_summary_spec team) = 2).
Proof.
  intros a1 a2.
  destruct (sample_attainment_exact (hash "jsmith")) as [E1 R1].
  destruct (sample_attainment_exact (hash "mjohnson")) as [E2 R2].
  pose proof (Z.mod_pos_bound (hash "jsmith") 20 eq_refl).
  pose proof (Z.mod_pos_bound (hash "mjohnson") 20 eq_refl).
  split; [|repeat split; try assumption; try (subst a1 a2; lia)].
  - unfold _generate_sample_team, sample_member.
    cbn [take _generate_sample_users map u_alias u_name u_job_title].
    rewrite E1, E2. reflexivity.
  - unfold lambda_handler. rewrite read_request_request.
    change (route hash (unreachable e) (PStr "GET")
              (PStr "/api/team-dashboard/manager1") cors_headers)
      with (_get_team_dashboard hash (unreachable e) "manager1" cors_headers).
    unfold _get_team_dashboard.
    cbn [unreachable team_scan get_items try_except mbind result_bind].
    rewrite sample_team_summary. reflexivity.
Qed.

(** ** Sample dashboard *)

Lemma hex_value_digit (n : Z) :
  exists d : Z, hex_value (MD5.hex_digit n) = Some d /\ 0 <= d < 16.
Proof.
  unfold MD5.hex_digit. generalize (Z.to_nat n). intros i.
  do 16 (destruct i as [|i];
         [eexists; split; [vm_compute; reflexivity | lia] |]).
  exists 0. split; [destruct i; reflexivity | lia].
Qed.

Lemma user_hash_ok (user_alias : string) :
  exists h : Z, user_hash user_alias = Ok h /\ 0 <= h < 2 ^ 32.
Proof.
  unfold user_hash, MD5.hexdigest, MD5.digest.
  generalize (fold_left MD5.compress
                (MD5.chunks (Nat.div (length (MD5.pad (MD5.bytes_of_string user_alias))) 64)
                   (MD5.pad (MD5.bytes_of_string user_alias))) MD5.init).
  intros st. unfold MD5.hex_of_bytes.
  cbn [MD5.le_bytes app flat_map string_of_list_ascii substring].
  unfold int_hex.
  cbn [list_ascii_of_string fold_left mbind result_bind].
  repeat match goal with
  | |- context [hex_value (MD5.hex_digit ?n)] =>
      let d := fresh "d" in
      let E := fresh "E" in
      let B := fresh "B" in
      destruct (hex_value_digit n) as (d & E & B); rewrite E
  end.
  eexists. split; [reflexivity|]. lia.
Qed.

Lemma get_user_info_ok (user_alias : string) :
  exists i : UserInfo, _get_user_info user_alias = Ok i.
Proof. unfold _get_user_info. cbn. eexists. reflexivity. Qed.

Lemma generate_user_dashboard_metrics (user_alias : string) (h : Z) :
  user_hash user_alias = Ok h ->
  forall ms : list Metric, sample_metrics (h mod 30) = Ok ms ->
  exists i : UserInfo,
    _get_user_info user_alias = Ok i /\
    _generate_user_dashboard user_alias = Ok {| info := i; metrics := ms |}.
Proof.
  intros Hh ms Hms.
  destruct (get_user_info_ok user_alias) as [i Hi].
  exists i. split; [exact Hi|].
  unfold _generate_user_dashboard. rewrite Hi.
  cbn [mbind result_bind]. fold (user_hash user_alias). rewrite Hh.
  cbn [mbind result_bind]. unfold sample_metrics in Hms.
  destruct (int_truediv (h mod 30) 100) as [v|e]; [|discriminate].
  cbn [mbind result_bind] in *. rewrite Hms. reflexivity.
Qed.

Lemma sample_metrics_cases (P : Z -> list Metric -> bool) :
  forallb (fun k => match sample_metrics k with
                    | Ok ms => P k ms
                    | Raise _ => false
                    end) (map Z.of_nat (seq 0 30)) = true ->
  forall k : Z, 0 <= k < 30 ->
  exists ms : list Metric, sample_metrics k = Ok ms /\ P k ms = true.
Proof.
  intros Hall k Hk.
  pose proof (forall_below 30 _ Hall k Hk) as Hone. cbv beta in Hone.
  destruct (sample_metrics k) as [ms|e]; [|discriminate].
  exists ms. split; [reflexivity | exact Hone].
Qed.

(** C1, as stated, fails: for the alias bob the hash is 0 modulo 30, and
    the attainment of customer_engagements is 74 and that of win_rate is
    below 75. *)
Lemma generate_user_dashboard_bob_below_75 :
  user_hash "bob" = Ok 2677887420 /\
  2677887420 mod 30 = 0 /\
  exists d : Dashboard,
    _generate_user_dashboard "bob" = Ok d /\
    map actual_value (metrics d) = [NInt 750000; NInt 37; NInt 52] /\
    map attainment_percent (metrics d) !! 1%nat = Some (of_Z 74) /\
    map (band 75 90) (metrics d) = [true; false; false].
Proof.
  split; [vm_compute; reflexivity|]. split; [reflexivity|].
  eexists. split; [vm_compute; reflexivity|].
  repeat split; vm_compute; reflexivity.
Qed.

(** C1, as amended. For every alias the sample dashboard has the three
    metrics revenue_target, customer_engagements and win_rate with the
    targets 1,000,000, 50 and 70; with k the hash modulo 30, the actual
    value is the floor of target * (0.75 + k/100 * 0.5), and the attainment
    lies between 74 and 90, and between 75 and 90 when k is at least 2.
    GET /api/dashboard/jsmith on a store that cannot be reached is answered
    200 with the three attainments between 75 and 90. *)
Theorem generate_user_dashboard_band :
  (forall user_alias : string,
     exists (h : Z) (d : Dashboard),
       user_hash user_alias = Ok h /\
       _generate_user_dashboard user_alias = Ok d /\
       sample_metrics (h mod 30) = Ok (metrics d) /\
       sample_metrics_ok (h mod 30) (metrics d) = true) /\
  (forall (hash : string -> Z) (e : exn),
     exists d : Dashboard,
       lambda_handler hash (unreachable e) (request "GET" "/api/dashboard/jsmith") =
         {| statusCode := 200; headers := cors_headers;
            body := Dumps (DashboardData d) |} /\
       i_user_alias (info d) = "jsmith" /\
       map metric_name (metrics d) =
         ["revenue_target"; "customer_engagements"; "win_rate"] /\
       forallb (band 75 90) (metrics d) = true).
Proof.
  split.
  - intros user_alias.
    destruct (user_hash_ok user_alias) as (h & Hh & _).
    pose proof (Z.mod_pos_bound h 30 eq_refl) as Hk.
    destruct (sample_metrics_cases sample_metrics_ok
                ltac:(vm_compute; reflexivity) (h mod 30) Hk) as (ms & Hms & Hok).
    destruct (generate_user_dashboard_metrics user_alias h Hh ms Hms)
      as (i & _ & Hd).
    exists h, {| info := i; metrics := ms |}. repeat split; assumption.
  - intros hash e. eexists.
    split; [vm_compute; reflexivity|].
    repeat split; vm_compute; reflexivity.
Qed.

(** ** Attainment against the two values of a metric *)

(** C2, as stated, fails: the formatter copies the stored attainment, 10
    here, where the values 50 and 100 give 50. *)
Lemma format_metric_stale_attainment :
  let m := _format_metric stale_item in
  is_zero (to_float (annual_target m)) = false /\
  attainment_percent m = of_Z 10 /\
  expected_attainment m = of_Z 50 /\
  attainment_consistent m = false.
Proof. repeat split; vm_compute; reflexivity. Qed.

(** C2, as amended. Every metric of the sample dashboard has the
    attainment actual_value / annual_target * 100, exactly; the formatter
    does not compute the attainment: it copies the stored one, 0 when the
    record has none. *)
Theorem attainment_of_metrics :
  (forall user_alias : string,
     exists d : Dashboard,
       _generate_user_dashboard user_alias = Ok d /\
       Forall (fun m => attainment_percent m = expected_attainment m /\
                        attainment_consistent m = true) (metrics d)) /\
  (forall item : MetricItem,
     attainment_percent (_format_metric item) =
       default (of_Z 0) (it_attainment_percent item)).
Proof.
  split; [|reflexivity].
  intros user_alias.
  destruct (user_hash_ok user_alias) as (h & Hh & _).
  pose proof (Z.mod_pos_bound h 30 eq_refl) as Hk.
  destruct (sample_metrics_cases (fun _ ms => forallb attainment_exact ms)
              ltac:(vm_compute; reflexivity) (h mod 30) Hk) as (ms & Hms & Hok).
  destruct (generate_user_dashboard_metrics user_alias h Hh ms Hms)
    as (i & _ & Hd).
  exists {| info := i; metrics := ms |}. split; [exact Hd|].
  cbn [metrics]. apply Forall_forall. intros m Hm.
  rewrite forallb_forall in Hok.
  apply list_elem_of_In in Hm. specialize (Hok m Hm).
  apply andb_prop in Hok as [Heq Hcons].
  split; [exact (proj1 (bool_decide_eq_true _) Heq) | exact Hcons].
Qed.

(** * Further properties *)

(** ** Reading the event *)

Lemma read_request_dict (d : gmap string pyval) :
  read_request (PDict d) =
    Ok (default (PStr "GET") (d !! "httpMethod"), default (PStr "") (d !! "path")).
Proof. reflexivity. Qed.

(** X1. The handler reads two keys of the event, httpMethod and path, and
    nothing else: a missing httpMethod counts as GET, a missing path as
    the empty path, and every other key is ignored. *)
Theorem lambda_handler_reads_two_keys (hash : string -> Z) (db : Store)
    (d : gmap string pyval) :
  lambda_handler hash db (PDict d) = lambda_handler hash db (normalised d).
Proof.
  unfold normalised, lambda_handler.
  rewrite !read_request_dict.
  rewrite lookup_insert_eq.
  rewrite lookup_insert_ne by discriminate.
  rewrite lookup_insert_eq.
  reflexivity.
Qed.

(** X2. A request whose method is OPTIONS is answered 200 with the CORS
    headers and an empty body, whatever the path (a path that is not a
    string included) and whatever the store. *)
Theorem lambda_handler_options_any_path (hash : string -> Z) (db : Store)
    (d : gmap string pyval)
    (Hmethod : d !! "httpMethod" = Some (PStr "OPTIONS")) :
  lambda_handler hash db (PDict d) =
    {| statusCode := 200; headers := cors_headers; body := EmptyText |}.
Proof.
  unfold lambda_handler. rewrite read_request_dict, Hmethod.
  reflexivity.
Qed.

Lemma lambda_handler_options_any_path_witness :
  (<["httpMethod" := PStr "OPTIONS"]> (<["path" := PList [PInt 1]]> ∅)
     : gmap string pyval) !! "httpMethod" = Some (PStr "OPTIONS") /\
  lambda_handler (fun _ => 0) (unreachable ClientError)
    (PDict (<["httpMethod" := PStr "OPTIONS"]> (<["path" := PList [PInt 1]]> ∅))) =
    {| statusCode := 200; headers := cors_headers; body := EmptyText |}.
Proof.
  split; [reflexivity|].
  apply (lambda_handler_options_any_path (fun _ => 0) (unreachable ClientError)).
  reflexivity.
Defined.

Lemma not_options (v : pyval) :
  v <> PStr "OPTIONS" -> py_eq_str v "OPTIONS" = false.
Proof.
  intros Hv. destruct v as [| | |s| |]; try reflexivity.
  cbn. destruct (String.eqb_spec s "OPTIONS") as [->|]; congruence.
Qed.

(** X3. When the path of the event is not a string and the method is not
    OPTIONS, the test [path.startswith] raises, and the request is answered
    500 "Internal server error", with the CORS headers, whatever the
    store. *)
Theorem lambda_handler_path_not_string (hash : string -> Z) (db : Store)
    (d : gmap string pyval) (v : pyval)
    (Hpath : d !! "path" = Some v)
    (Hv : is_str v = false)
    (Hmethod : d !! "httpMethod" <> Some (PStr "OPTIONS")) :
  lambda_handler hash db (PDict d) =
    {| statusCode := 500; headers := cors_headers;
       body := Dumps (ErrorData "Internal server error") |}.
Proof.
  unfold lambda_handler. rewrite read_request_dict, Hpath.
  cbn [default]. unfold route.
  rewrite not_options.
  2:{ destruct (d !! "httpMethod") as [m|]; cbn; congruence. }
  destruct v as [| | |s| |]; try discriminate Hv; reflexivity.
Qed.

Lemma lambda_handler_path_not_string_witness :
  let d : gmap string pyval := <["path" := PNone]> ∅ in
  d !! "path" = Some PNone /\ is_str PNone = false /\
  d !! "httpMethod" <> Some (PStr "OPTIONS") /\
  lambda_handler (fun _ => 0) (unreachable ClientError) (PDict d) =
    {| statusCode := 500; headers := cors_headers;
       body := Dumps (ErrorData "Internal server error") |}.
Proof.
  intros d. split; [reflexivity|]. split; [reflexivity|].
  split; [discriminate|].
  apply (lambda_handler_path_not_string (fun _ => 0) (unreachable ClientError)
           d PNone).
  - reflexivity.
  - reflexivity.
  - discriminate.
Defined.

(** ** The last segment of a path *)

Lemma split_no_slash (a : string) :
  no_slash a = true -> split "/" a = [a].
Proof.
  induction a as [|c a IH]; [reflexivity|].
  unfold no_slash. cbn [list_ascii_of_string forallb split].
  intros H. apply andb_prop in H as [Hc Ha].
  apply negb_true_iff in Hc. rewrite Hc.
  rewrite (IH Ha). reflexivity.
Qed.

Lemma split_after_slash (pre a : string) :
  no_slash a = true ->
  exists (w : string) (ws : list string),
    split "/" (pre +:+ "/" +:+ a) = w :: ws /\ last ws = Some a.
Proof.
  intros Ha. induction pre as [|c pre (w & ws & E & L)].
  - exists "", [a].
    change ("" +:+ "/" +:+ a) with (String "/" a). cbn [split].
    change (Ascii.eqb "/" "/") with true. cbv iota.
    rewrite (split_no_slash a Ha). split; reflexivity.
  - change (String c pre +:+ "/" +:+ a) with (String c (pre +:+ "/" +:+ a)).
    cbn [split]. rewrite E.
    destruct (Ascii.eqb c "/").
    + exists "", (w :: ws). split; [reflexivity|].
      rewrite last_cons, L. reflexivity.
    + exists (String c w), ws. split; [reflexivity | exact L].
Qed.

(** X4. The alias the router hands to a handler, [path.split('/')[-1]],
    is what follows the last "/" of the path: for a path made of any
    prefix, a "/" and a text without "/", it is that text, and the lookup
    of the last segment does not raise. *)
Theorem last_segment_after_slash (pre a : string)
    (Ha : no_slash a = true) :
  index_last (split "/" (pre +:+ "/" +:+ a)) = Ok a.
Proof.
  destruct (split_after_slash pre a Ha) as (w & ws & E & L).
  unfold index_last. rewrite E, last_cons, L. reflexivity.
Qed.

Lemma last_segment_after_slash_witness :
  no_slash "jsmith" = true /\
  index_last (split "/" ("/api/dashboard/extra" +:+ "/" +:+ "jsmith")) = Ok "jsmith".
Proof.
  split; [reflexivity|].
  apply (last_segment_after_slash "/api/dashboard/extra" "jsmith").
  reflexivity.
Defined.

Lemma split_last_ok (p : string) :
  exists a : string, index_last (split "/" p) = Ok a.
Proof.
  assert (Hne : split "/" p <> []).
  { destruct p as [|c p]; cbn [split]; [discriminate|].
    destruct (Ascii.eqb c "/"); [discriminate|].
    destruct (split "/" p); discriminate. }
  unfold index_last.
  destruct (last (split "/" p)) as [a|] eqn:E; [eauto|].
  apply last_None in E. contradiction.
Qed.

(** ** What the handlers answer *)

Lemma get_users_answer (db : Store) (hdrs : gmap string string) :
  _get_users db hdrs = Ok (_success_response (UsersData (listed_users db)) hdrs).
Proof.
  unfold _get_users, listed_users.
  destruct (users_scan db) as [e|[[|u us]|]]; reflexivity.
Qed.

Lemma generate_user_dashboard_ok (user_alias : string) :
  exists (i : UserInfo) (ms : list Metric),
    _get_user_info user_alias = Ok i /\
    _generate_user_dashboard user_alias = Ok {| info := i; metrics := ms |} /\
    length ms = 3%nat.
Proof.
  destruct (user_hash_ok user_alias) as (h & Hh & _).
  pose proof (Z.mod_pos_bound h 30 eq_refl) as Hk.
  destruct (sample_metrics_cases (fun _ ms => Nat.eqb (length ms) 3)
              ltac:(vm_compute; reflexivity) (h mod 30) Hk) as (ms & Hms & Hlen).
  destruct (generate_user_dashboard_metrics user_alias h Hh ms Hms)
    as (i & Hi & Hd).
  exists i, ms. repeat split; try assumption.
  apply Nat.eqb_eq. exact Hlen.
Qed.

Lemma get_user_dashboard_answer (db : Store) (user_alias : string)
    (hdrs : gmap string string) :
  exists d : Dashboard,
    _get_user_dashboard db user_alias hdrs =
      Ok (_success_response (DashboardData d) hdrs).
Proof.
  destruct (generate_user_dashboard_ok user_alias) as (i & ms & Hi & Hd & _).
  unfold _get_user_dashboard. rewrite Hi, Hd.
  destruct (metrics_query db user_alias) as [e|[[|it its]|]];
    eexists; reflexivity.
Qed.

Lemma team_of_cons (hash : string -> Z) (db : Store) (manager_alias : string) :
  exists (t : TeamMember) (ts : list TeamMember),
    team_of hash db manager_alias = t :: ts.
Proof.
  unfold team_of.
  destruct (team_scan db manager_alias) as [e|[[|t ts]|]];
    eexists _, _; reflexivity.
Qed.

Lemma get_team_dashboard_answer (hash : string -> Z) (db : Store)
    (manager_alias : string) (hdrs : gmap string string) :
  let team := team_of hash db manager_alias in
  _get_team_dashboard hash db manager_alias hdrs =
    Ok (_success_response
          (TeamData manager_alias (team_summary_spec team) team) hdrs).
Proof.
  intros team.
  destruct (team_of_cons hash db manager_alias) as (t & ts & Ht).
  assert (Hteam : _get_team_dashboard hash db manager_alias hdrs =
            try_except
              (team_summary ← _calculate_team_summary team;
               mret (_success_response
                       (TeamData manager_alias team_summary team) hdrs))
              (fun e => Ok (_error_response 500 "Failed to retrieve team data" hdrs))).
  { unfold _get_team_dashboard, team, team_of.
    destruct (team_scan db manager_alias) as [e|[[|t' ts']|]]; reflexivity. }
  rewrite Hteam. subst team. rewrite Ht, calculate_team_summary_cons.
  reflexivity.
Qed.

(** ** Requests with a method and a path *)

(** X5. When the store brings no metric and no team row with an
    attainment (it cannot be reached, or it is empty), a request whose
    method is a string and whose path is an ASCII string is answered 200
    when the method is OPTIONS or the request is one of the three routes,
    and 404 otherwise, never 500.  The body is empty exactly for
    OPTIONS. *)
Theorem lambda_handler_status (hash : string -> Z) (db : Store)
    (method path : string)
    (Hpath : is_ascii path = true)
    (Hmetrics : forall a : string, no_items (metrics_query db a) = true)
    (Hteam : forall a : string, without_attainment (team_scan db a) = true) :
  let r := lambda_handler hash db (request method path) in
  statusCode r =
    (if String.eqb method "OPTIONS" || matches_route method path
     then 200 else 404) /\
  (body r = EmptyText <-> method = "OPTIONS").
Proof.
  cbv zeta. unfold lambda_handler. rewrite read_request_request.
  unfold route, matches_route. cbn [py_eq_str py_startswith].
  destruct (String.eqb_spec method "OPTIONS") as [->|Hno].
  { cbn. split; [reflexivity|]. split; reflexivity. }
  cbn [mbind result_bind orb].
  destruct (split_last_ok path) as [a Ea].
  destruct (get_user_dashboard_answer db a cors_headers) as [d Ed].
  pose proof (get_team_dashboard_answer hash db a cors_headers) as Et.
  cbv zeta in Et.
  destruct (String.eqb method "GET"), (String.eqb path "/api/users"),
    (String.prefix "/api/dashboard/" path),
    (String.prefix "/api/team-dashboard/" path);
    cbn [andb orb];
    rewrite ?get_users_answer, ?Ea; cbn [mbind result_bind];
    rewrite ?Ed, ?Et; cbn;
    (split; [reflexivity | split; [discriminate | contradiction]]).
Qed.

Lemma lambda_handler_status_witness :
  is_ascii "/api/dashboard/jsmith" = true /\
  (forall a : string, no_items (metrics_query (unreachable ClientError) a) = true) /\
  (forall a : string,
     without_attainment (team_scan (unreachable ClientError) a) = true) /\
  (let r := lambda_handler (fun _ => 0) (unreachable ClientError)
              (request "GET" "/api/dashboard/jsmith") in
   statusCode r =
     (if String.eqb "GET" "OPTIONS" || matches_route "GET" "/api/dashboard/jsmith"
      then 200 else 404) /\
   (body r = EmptyText <-> "GET" = "OPTIONS")).
Proof.
  split; [reflexivity|]. split; [intros a; reflexivity|].
  split; [intros a; reflexivity|].
  exact (lambda_handler_status (fun _ => 0) (unreachable ClientError)
           "GET" "/api/dashboard/jsmith" eq_refl
           (fun _ => eq_refl) (fun _ => eq_refl)).
Defined.

(** X6. GET /api/users is always answered 200, with the users of the
    store when the scan brings some and with the sample users otherwise;
    the list of the answer is never empty. *)
Theorem get_users_listing (hash : string -> Z) (db : Store) :
  lambda_handler hash db (request "GET" "/api/users") =
    {| statusCode := 200; headers := cors_headers;
       body := Dumps (UsersData (listed_users db)) |} /\
  (exists (u : User) (us : list User), listed_users db = u :: us) /\
  listed_users db =
    (if no_items (users_scan db) then _generate_sample_users
     else match users_scan db with
          | Reply (Some us) => us
          | _ => []
          end).
Proof.
  split; [|split].
  - unfold lambda_handler. rewrite read_request_request.
    change (route hash db (PStr "GET") (PStr "/api/users") cors_headers)
      with (_get_users db cors_headers).
    rewrite get_users_answer. reflexivity.
  - unfold listed_users.
    destruct (users_scan db) as [e|[[|u us]|]]; eexists _, _; reflexivity.
  - unfold listed_users.
    destruct (users_scan db) as [e|[[|u us]|]]; reflexivity.
Qed.

(** X7. For an alias m without "/" and a store whose scan for m brings
    no row, or rows that carry no attainment, GET /api/team-dashboard/m is
    answered 200; the answer names m as the manager, lists the rows of the
    store when the scan brings some and the sample team otherwise, and its
    summary counts that list, which has at least one member: the handler
    never reaches the empty summary. *)
Theorem get_team_dashboard_listing (hash : string -> Z) (db : Store)
    (manager_alias : string)
    (Hm : no_slash manager_alias = true)
    (Hrows : without_attainment (team_scan db manager_alias) = true) :
  let team := team_of hash db manager_alias in
  lambda_handler hash db (request "GET" ("/api/team-dashboard/" +:+ manager_alias)) =
    {| statusCode := 200; headers := cors_headers;
       body := Dumps (TeamData manager_alias (team_summary_spec team) team) |} /\
  total_members (team_summary_spec team) = Z.of_nat (length team) /\
  1 <= total_members (team_summary_spec team).
Proof.
  intros team. split.
  - unfold lambda_handler. rewrite read_request_request.
    unfold route. cbn [py_eq_str py_startswith mbind result_bind].
    change (String.eqb "GET" "OPTIONS") with false.
    change (String.eqb "GET" "GET") with true.
    change (String.eqb ("/api/team-dashboard/" +:+ manager_alias) "/api/users")
      with false.
    change (String.prefix "/api/dashboard/" ("/api/team-dashboard/" +:+ manager_alias))
      with false.
    change (String.prefix "/api/team-dashboard/" ("/api/team-dashboard/" +:+ manager_alias))
      with (String.prefix "" manager_alias).
    replace (String.prefix "" manager_alias) with true
      by (destruct manager_alias; reflexivity).
    cbn [andb].
    change ("/api/team-dashboard/" +:+ manager_alias)
      with ("/api/team-dashboard" +:+ "/" +:+ manager_alias).
    destruct (split_after_slash "/api/team-dashboard" manager_alias Hm)
      as (w & ws & E & L).
    unfold index_last. rewrite E, last_cons, L. cbn [mbind result_bind].
    rewrite get_team_dashboard_answer. reflexivity.
  - destruct (team_of_cons hash db manager_alias) as (t & ts & Ht).
    subst team. rewrite Ht.
    cbn [team_summary_spec total_members length]. lia.
Qed.

Lemma get_team_dashboard_listing_witness :
  no_slash "manager1" = true /\
  without_attainment (team_scan (unreachable ClientError) "manager1") = true /\
  (let team := team_of (fun _ => 0) (unreachable ClientError) "manager1" in
   lambda_handler (fun _ => 0) (unreachable ClientError)
     (request "GET" ("/api/team-dashboard/" +:+ "manager1")) =
     {| statusCode := 200; headers := cors_headers;
        body := Dumps (TeamData "manager1" (team_summary_spec team) team) |} /\
   total_members (team_summary_spec team) = Z.of_nat (length team) /\
   1 <= total_members (team_summary_spec team)).
Proof.
  split; [reflexivity|]. split; [reflexivity|].
  exact (get_team_dashboard_listing (fun _ => 0) (unreachable ClientError)
           "manager1" eq_refl eq_refl).
Defined.

(** ** The dashboard of a user without stored metrics *)

Lemma get_user_info_alias (user_alias : string) (i : UserInfo) :
  _get_user_info user_alias = Ok i -> i_user_alias i = shown_alias user_alias.
Proof.
  unfold _get_user_info, shown_alias.
  cbn [index_first _generate_sample_users mbind result_bind mret result_ret
       List.find u_alias map].
  destruct (String.eqb_spec "jsmith" user_alias) as [<-|N1].
  { intros [= <-]. reflexivity. }
  destruct (String.eqb_spec "mjohnson" user_alias) as [<-|N2].
  { intros [= <-]. reflexivity. }
  destruct (String.eqb_spec "rbrown" user_alias) as [<-|N3].
  { intros [= <-]. reflexivity. }
  intros [= <-]. rewrite bool_decide_eq_false_2; [reflexivity|].
  rewrite !not_elem_of_cons. repeat split; try congruence. apply not_elem_of_nil.
Qed.

(** X8. When the store brings no metric for an ASCII alias without "/"
    (the query raises or has no item), GET /api/dashboard/alias is answered 200
    with the generated dashboard: three metrics, under the identity of the
    alias when it is a sample user and under that of jsmith for any other
    alias. *)
Theorem get_user_dashboard_fallback (hash : string -> Z) (db : Store)
    (user_alias : string)
    (Hascii : is_ascii user_alias = true)
    (Ha : no_slash user_alias = true)
    (Hnone : no_items (metrics_query db user_alias) = true) :
  exists d : Dashboard,
    _generate_user_dashboard user_alias = Ok d /\
    lambda_handler hash db (request "GET" ("/api/dashboard/" +:+ user_alias)) =
      {| statusCode := 200; headers := cors_headers;
         body := Dumps (DashboardData d) |} /\
    i_user_alias (info d) = shown_alias user_alias /\
    length (metrics d) = 3%nat.
Proof.
  destruct (generate_user_dashboard_ok user_alias) as (i & ms & Hi & Hd & Hlen).
  exists {| info := i; metrics := ms |}.
  split; [exact Hd|]. split; [|split; [apply get_user_info_alias, Hi | exact Hlen]].
  unfold lambda_handler. rewrite read_request_request.
  unfold route. cbn [py_eq_str py_startswith mbind result_bind].
  change (String.eqb "GET" "OPTIONS") with false.
  change (String.eqb "GET" "GET") with true.
  change (String.eqb ("/api/dashboard/" +:+ user_alias) "/api/users") with false.
  change (String.prefix "/api/dashboard/" ("/api/dashboard/" +:+ user_alias))
    with (String.prefix "" user_alias).
  replace (String.prefix "" user_alias) with true
    by (destruct user_alias; reflexivity).
  cbn [andb].
  change ("/api/dashboard/" +:+ user_alias)
    with ("/api/dashboard" +:+ "/" +:+ user_alias).
  destruct (split_after_slash "/api/dashboard" user_alias Ha) as (w & ws & E & L).
  unfold index_last. rewrite E, last_cons, L. cbn [mbind result_bind].
  unfold _get_user_dashboard. rewrite Hd.
  destruct (metrics_query db user_alias) as [e|[[|it its]|]];
    try discriminate Hnone; reflexivity.
Qed.

Lemma get_user_dashboard_fallback_witness :
  is_ascii "bob" = true /\
  no_slash "bob" = true /\
  no_items (metrics_query (unreachable ClientError) "bob") = true /\
  exists d : Dashboard,
    _generate_user_dashboard "bob" = Ok d /\
    lambda_handler (fun _ => 0) (unreachable ClientError)
      (request "GET" ("/api/dashboard/" +:+ "bob")) =
      {| statusCode := 200; headers := cors_headers;
         body := Dumps (DashboardData d) |} /\
    i_user_alias (info d) = shown_alias "bob" /\
    length (metrics d) = 3%nat.
Proof.
  split; [reflexivity|]. split; [reflexivity|]. split; [reflexivity|].
  apply (get_user_dashboard_fallback (fun _ => 0) (unreachable ClientError) "bob");
    reflexivity.
Defined.

(** ** The summary of the sample team *)

Lemma pair_ok_all (k1 k2 : Z) :
  0 <= k1 < 20 -> 0 <= k2 < 20 -> pair_ok k1 k2 = true.
Proof.
  intros H1 H2.
  pose proof (forall_below 20
    (fun k1 => forallb (pair_ok k1) (map Z.of_nat (seq 0 20)))
    ltac:(vm_compute; reflexivity) k1 H1) as Hrow.
  cbv beta in Hrow.
  exact (forall_below 20 (pair_ok k1) Hrow k2 H2).
Qed.

(** X9. Whatever the built-in hash and the manager, the summary of the
    sample team has two members, both on track and none at risk, and its
    average is the exact mean of the two attainments, a value between 85
    and 104 with one decimal. *)
Theorem sample_team_summary_on_track (hash : string -> Z) (manager_alias : string) :
  let k1 := hash "jsmith" mod 20 in
  let k2 := hash "mjohnson" mod 20 in
  _calculate_team_summary (_generate_sample_team hash manager_alias) =
    Ok {| total_members := 2; avg_attainment := NFloat (pair_mean k1 k2);
          members_on_track := 2; members_at_risk := 0 |} /\
  in_range 85 104 (pair_mean k1 k2) = true.
Proof.
  intros k1 k2.
  pose proof (Z.mod_pos_bound (hash "jsmith") 20 eq_refl) as H1.
  pose proof (Z.mod_pos_bound (hash "mjohnson") 20 eq_refl) as H2.
  pose proof (pair_ok_all k1 k2 H1 H2) as Hok.
  pose proof (pair_ok_all k2 k1 H2 H1) as Hko.
  unfold pair_ok in Hok, Hko.
  apply andb_prop in Hok as [Hok Hrange]. apply andb_prop in Hok as [Hg1 Hmean].
  apply andb_prop in Hko as [Hko _]. apply andb_prop in Hko as [Hg2 _].
  apply bool_decide_eq_true in Hmean.
  split; [|exact Hrange].
  rewrite sample_team_summary.
  destruct (sample_attainment_exact (hash "jsmith")) as [E1 _].
  destruct (sample_attainment_exact (hash "mjohnson")) as [E2 _].
  unfold _generate_sample_team.
  cbn [take _generate_sample_users map u_alias u_name u_job_title].
  rewrite E1, E2. fold k1 k2.
  unfold team_summary_spec, mean_attainment, on_track, attainment_of.
  cbn [List.filter map overall_attainment default from_option id length].
  rewrite Hg1, Hg2. cbn [length].
  change (Z.of_nat 2) with 2.
  rewrite Hmean. reflexivity.
Qed.

(** ** The float of a positive integer *)

Lemma shr_1_m (mrs : shr_record) :
  0 <= shr_m mrs -> shr_m (shr_1 mrs) = shr_m mrs / 2.
Proof.
  destruct mrs as [m r s]. cbn [shr_m]. intros Hm.
  destruct m as [|p|p]; [reflexivity| |pose proof (Pos2Z.neg_is_neg p); lia].
  destruct p as [p|p|]; cbn [shr_1 shr_m].
  - rewrite Pos2Z.inj_xI. apply (Z.div_unique _ 2 _ 1); lia.
  - rewrite Pos2Z.inj_xO. apply (Z.div_unique _ 2 _ 0); lia.
  - reflexivity.
Qed.

Lemma pow2_xO (p : positive) : 2 ^ Zpos p~0 = 2 ^ Zpos p * 2 ^ Zpos p.
Proof.
  replace (Zpos p~0) with (Zpos p + Zpos p) by lia.
  apply Z.pow_add_r; lia.
Qed.

Lemma pow2_xI (p : positive) : 2 ^ Zpos p~1 = 2 * (2 ^ Zpos p * 2 ^ Zpos p).
Proof.
  replace (Zpos p~1) with (Z.succ (Zpos p~0)) by lia.
  rewrite Z.pow_succ_r by lia.
  f_equal. exact (pow2_xO p).
Qed.

Lemma iter_shr_m (p : positive) :
  forall mrs : shr_record, 0 <= shr_m mrs ->
  shr_m (SpecFloat.iter_pos shr_1 p mrs) = shr_m mrs / 2 ^ Zpos p.
Proof.
  induction p as [p IH|p IH|]; intros mrs Hm; cbn [SpecFloat.iter_pos].
  - assert (Hpow : 0 < 2 ^ Zpos p) by (apply Z.pow_pos_nonneg; lia).
    assert (H1 : 0 <= shr_m (shr_1 mrs))
      by (rewrite shr_1_m by lia; apply Z.div_pos; lia).
    assert (H2 : 0 <= shr_m (SpecFloat.iter_pos shr_1 p (shr_1 mrs)))
      by (rewrite IH by lia; apply Z.div_pos; lia).
    rewrite IH, IH, shr_1_m by assumption.
    rewrite !Z.div_div by lia.
    rewrite pow2_xI. f_equal; ring.
  - assert (Hpow : 0 < 2 ^ Zpos p) by (apply Z.pow_pos_nonneg; lia).
    assert (H2 : 0 <= shr_m (SpecFloat.iter_pos shr_1 p mrs))
      by (rewrite IH by lia; apply Z.div_pos; lia).
    rewrite IH, IH by assumption.
    rewrite !Z.div_div by lia.
    rewrite pow2_xO. reflexivity.
  - rewrite shr_1_m by assumption. reflexivity.
Qed.

Lemma digits2_pos_bound (p : positive) :
  2 ^ (Zpos (digits2_pos p) - 1) <= Zpos p < 2 ^ Zpos (digits2_pos p).
Proof.
  induction p as [p IH|p IH|]; cbn [digits2_pos].
  - rewrite Pos2Z.inj_succ.
    replace (Z.succ (Zpos (digits2_pos p)) - 1) with (Z.succ (Zpos (digits2_pos p) - 1)) by lia.
    rewrite !Z.pow_succ_r by lia. lia.
  - rewrite Pos2Z.inj_succ.
    replace (Z.succ (Zpos (digits2_pos p)) - 1) with (Z.succ (Zpos (digits2_pos p) - 1)) by lia.
    rewrite !Z.pow_succ_r by lia. lia.
  - cbn. lia.
Qed.

(** Shifting a positive mantissa right by fewer places than it has digits
    leaves a positive mantissa. *)
Lemma shr_positive (m : positive) (l : location) (e n : Z) :
  n < Zpos (digits2_pos m) ->
  0 < shr_m (fst (shr (shr_record_of_loc (Zpos m) l) e n)).
Proof.
  intros Hn.
  assert (Hm : shr_m (shr_record_of_loc (Zpos m) l) = Zpos m)
    by (destruct l as [|[]]; reflexivity).
  destruct n as [|q|q]; cbn [shr fst]; try (rewrite Hm; lia).
  rewrite iter_shr_m by (rewrite Hm; lia). rewrite Hm.
  pose proof (digits2_pos_bound m) as [Hlo _].
  apply Z.div_str_pos. split; [apply Z.pow_pos_nonneg; lia|].
  eapply Z.le_trans; [|exact Hlo].
  apply Z.pow_le_mono_r; lia.
Qed.

Lemma shr_fexp_positive (m : positive) (e : Z) (l : location) :
  -1074 <= e ->
  0 < shr_m (fst (shr_fexp 53 1024 (Zpos m) e l)) /\
  -1074 <= snd (shr_fexp 53 1024 (Zpos m) e l).
Proof.
  intros He. unfold shr_fexp. cbn [Zdigits2].
  set (n := fexp 53 1024 (Zpos (digits2_pos m) + e) - e).
  assert (Hn : n < Zpos (digits2_pos m)).
  { subst n. unfold fexp, emin. lia. }
  split; [apply shr_positive; exact Hn|].
  destruct n as [|q|q]; cbn [shr snd]; lia.
Qed.

Lemma round_nearest_even_positive (m : Z) (l : location) :
  0 < m -> 0 < round_nearest_even m l.
Proof.
  intros Hm. destruct l as [|[]]; cbn [round_nearest_even]; try lia.
  destruct (Z.even m); lia.
Qed.

Lemma binary_round_aux_positive (m : positive) (e : Z) :
  -1074 <= e ->
  positive_value (binary_round_aux 53 1024 false (Zpos m) e loc_Exact) = true.
Proof.
  intros He. unfold binary_round_aux.
  pose proof (shr_fexp_positive m e loc_Exact He) as [Hm1 He1].
  destruct (shr_fexp 53 1024 (Zpos m) e loc_Exact) as [mrs1 e1].
  cbn [fst snd] in Hm1, He1.
  pose proof (round_nearest_even_positive _ (loc_of_shr_record mrs1) Hm1) as Hr.
  destruct (round_nearest_even (shr_m mrs1) (loc_of_shr_record mrs1))
    as [|q|q]; try lia.
  pose proof (shr_fexp_positive q e1 loc_Exact He1) as [Hm2 _].
  destruct (shr_fexp 53 1024 (Zpos q) e1 loc_Exact) as [mrs2 e2].
  cbn [fst] in Hm2.
  destruct (shr_m mrs2) as [|r|r]; try lia.
  destruct (Z.leb e2 (1024 - 53)); reflexivity.
Qed.

Lemma of_Z_positive (p : positive) :
  positive_value (binary_normalize 53 1024 (Zpos p) 0 false) = true.
Proof.
  cbn [binary_normalize]. unfold binary_round, shl_align.
  assert (He : -1074 <= fexp 53 1024 (Zpos (digits2_pos p) + 0))
    by (unfold fexp, emin; lia).
  destruct (fexp 53 1024 (Zpos (digits2_pos p) + 0) - 0) as [|d|d] eqn:Ed;
    apply binary_round_aux_positive; lia.
Qed.

Lemma zero_over_length {A} (a : A) (xs : list A) :
  round1 (div (of_Z 0) (of_Z (Z.of_nat (length (a :: xs))))) = of_Z 0.
Proof.
  cbn [length]. rewrite Nat2Z.inj_succ.
  destruct (Z.succ (Z.of_nat (length xs))) as [|p|p] eqn:E; try lia.
  pose proof (of_Z_positive p) as Hp.
  unfold of_Z at 2. unfold prec, emax.
  destruct (binary_normalize 53 1024 (Zpos p) 0 false) as [| [] | | [] m e];
    try discriminate Hp; reflexivity.
Qed.

(** ** A team read from the users table *)

Lemma sum_of_zeros (team : list TeamMember) (acc : float) :
  Forall (fun m => overall_attainment m = None) team ->
  acc = of_Z 0 ->
  fold_left add (map attainment_of team) acc = of_Z 0.
Proof.
  intros Hall. revert acc.
  induction Hall as [|m team Hm _ IH]; intros acc ->; [reflexivity|].
  cbn [map fold_left]. apply IH.
  unfold attainment_of. rewrite Hm. reflexivity.
Qed.

Lemma filter_none_on_track (team : list TeamMember) :
  Forall (fun m => overall_attainment m = None) team ->
  List.filter on_track team = [].
Proof.
  induction 1 as [|m team Hm _ IH]; [reflexivity|].
  cbn [List.filter]. unfold on_track at 1, attainment_of.
  rewrite Hm. exact IH.
Qed.

(** X10. When no member carries an attainment, as the rows of the users
    table do, the aggregator does not raise: the average is 0.0 (the
    integer 0 on the empty list), no member is on track and every member
    is at risk. *)
Theorem team_summary_without_attainment (team : list TeamMember)
    (Hnone : Forall (fun m => overall_attainment m = None) team) :
  _calculate_team_summary team =
    Ok {| total_members := Z.of_nat (length team);
          avg_attainment := match team with
                            | [] => NInt 0
                            | _ => NFloat (of_Z 0)
                            end;
          members_on_track := 0;
          members_at_risk := Z.of_nat (length team) |}.
Proof.
  destruct team as [|m team]; [reflexivity|].
  rewrite calculate_team_summary_cons.
  unfold team_summary_spec, mean_attainment.
  rewrite (filter_none_on_track (m :: team) Hnone).
  unfold py_sum. rewrite (sum_of_zeros (m :: team) (of_Z 0) Hnone eq_refl).
  rewrite zero_over_length.
  cbn [length]. do 2 f_equal; lia.
Qed.

Lemma team_summary_without_attainment_witness :
  Forall (fun m => overall_attainment m = None) [member_with None; member_with None] /\
  _calculate_team_summary [member_with None; member_with None] =
    Ok {| total_members := 2; avg_attainment := NFloat (of_Z 0);
          members_on_track := 0; members_at_risk := 2 |}.
Proof.
  assert (H : Forall (fun m => overall_attainment m = None)
                [member_with None; member_with None])
    by (repeat constructor).
  split; [exact H|].
  exact (team_summary_without_attainment [member_with None; member_with None] H).
Defined.

(** ** The counts of a summary and the order of the members *)

Lemma filter_length_perm {A} (f : A -> bool) (xs ys : list A) :
  xs ≡ₚ ys -> length (List.filter f xs) = length (List.filter f ys).
Proof.
  induction 1 as [|x xs ys _ IH|x y xs|xs ys zs _ IH1 _ IH2]; cbn [List.filter].
  - reflexivity.
  - destruct (f x); cbn [length]; congruence.
  - destruct (f x), (f y); reflexivity.
  - congruence.
Qed.

(** X11. The counts of the summary do not depend on the order of the
    members: two lists that are permutations of one another have the same
    total, the same number of members on track and the same number at
    risk. *)
Theorem team_summary_counts_perm (team1 team2 : list TeamMember)
    (Hperm : team1 ≡ₚ team2) :
  exists s1 s2 : TeamSummary,
    _calculate_team_summary team1 = Ok s1 /\
    _calculate_team_summary team2 = Ok s2 /\
    total_members s1 = total_members s2 /\
    members_on_track s1 = members_on_track s2 /\
    members_at_risk s1 = members_at_risk s2.
Proof.
  pose proof (Permutation_length Hperm) as Hlen.
  pose proof (filter_length_perm on_track team1 team2 Hperm) as Hgood.
  destruct team1 as [|m1 team1], team2 as [|m2 team2]; try discriminate Hlen.
  - eexists _, _. repeat split.
  - eexists _, _.
    split; [apply calculate_team_summary_cons|].
    split; [apply calculate_team_summary_cons|].
    unfold team_summary_spec.
    cbn [total_members members_on_track members_at_risk].
    rewrite Hlen, Hgood. repeat split.
Qed.

Lemma team_summary_counts_perm_witness :
  [member_with (Some (of_Z 90)); member_with None] ≡ₚ
  [member_with None; member_with (Some (of_Z 90))] /\
  exists s1 s2 : TeamSummary,
    _calculate_team_summary [member_with (Some (of_Z 90)); member_with None] = Ok s1 /\
    _calculate_team_summary [member_with None; member_with (Some (of_Z 90))] = Ok s2 /\
    total_members s1 = total_members s2 /\
    members_on_track s1 = members_on_track s2 /\
    members_at_risk s1 = members_at_risk s2.
Proof.
  assert (H : [member_with (Some (of_Z 90)); member_with None] ≡ₚ
              [member_with None; member_with (Some (of_Z 90))])
    by apply perm_swap.
  split; [exact H|].
  exact (team_summary_counts_perm _ _ H).
Defined.

(** ** The hash of an alias *)

Lemma byte_ok_all (b : Z) : 0 <= b < 256 -> byte_ok b = true.
Proof. apply (forall_below 256 byte_ok). vm_compute. reflexivity. Qed.

Lemma hex_of_byte (b acc : Z) :
  0 <= b < 256 ->
  exists hi lo : Z,
    hex_value (MD5.hex_digit (Z.shiftr b 4)) = Some hi /\
    hex_value (MD5.hex_digit (Z.land b 15)) = Some lo /\
    16 * (16 * acc + hi) + lo = 256 * acc + b.
Proof.
  intros Hb. pose proof (byte_ok_all b Hb) as Hok.
  unfold byte_ok, nibble_ok in Hok.
  apply andb_prop in Hok as [Hok Hsum]. apply andb_prop in Hok as [Hhi Hlo].
  destruct (hex_value (MD5.hex_digit (Z.shiftr b 4))) as [hi|]; [|discriminate].
  destruct (hex_value (MD5.hex_digit (Z.land b 15))) as [lo|]; [|discriminate].
  exists hi, lo. repeat split. lia.
Qed.

Lemma substring_0_0 (s : string) : substring 0 0 s = "".
Proof. destruct s; reflexivity. Qed.

Lemma int_hex_of_four (b0 b1 b2 b3 : Z) (rest : list Z) :
  0 <= b0 < 256 -> 0 <= b1 < 256 -> 0 <= b2 < 256 -> 0 <= b3 < 256 ->
  int_hex (substring 0 8 (MD5.hex_of_bytes (b0 :: b1 :: b2 :: b3 :: rest))) =
    Ok (((b0 * 256 + b1) * 256 + b2) * 256 + b3).
Proof.
  intros H0 H1 H2 H3.
  unfold MD5.hex_of_bytes.
  cbn [flat_map app string_of_list_ascii substring].
  replace (substring 0 0 _) with "" by (symmetry; apply substring_0_0).
  unfold int_hex. cbn [list_ascii_of_string fold_left mbind result_bind].
  destruct (hex_of_byte b0 0 H0) as (h0 & l0 & -> & -> & E0).
  destruct (hex_of_byte b1 (16 * (16 * 0 + h0) + l0) H1) as (h1 & l1 & -> & -> & E1).
  destruct (hex_of_byte b2 (16 * (16 * (16 * (16 * 0 + h0) + l0) + h1) + l1) H2)
    as (h2 & l2 & -> & -> & E2).
  destruct (hex_of_byte b3
              (16 * (16 * (16 * (16 * (16 * (16 * 0 + h0) + l0) + h1) + l1) + h2) + l2) H3)
    as (h3 & l3 & -> & -> & E3).
  cbv beta iota delta [mbind result_bind].
  f_equal. lia.
Qed.

Lemma low_byte_range (n : Z) : 0 <= Z.land n 255 < 256.
Proof.
  change 255 with (Z.ones 8). rewrite Z.land_ones by lia.
  apply Z.mod_pos_bound. reflexivity.
Qed.

(** X12. The hash [_generate_user_dashboard] draws from an alias is the
    first four bytes of the MD5 digest of the alias read as a big-endian
    number: the conversion of the first eight hexadecimal digits never
    raises, and the hash is below 2^32. *)
Theorem user_hash_digest (user_alias : string) :
  exists (b0 b1 b2 b3 : Z) (rest : list Z),
    MD5.digest (MD5.bytes_of_string user_alias) = b0 :: b1 :: b2 :: b3 :: rest /\
    length rest = 12%nat /\
    user_hash user_alias = Ok (((b0 * 256 + b1) * 256 + b2) * 256 + b3) /\
    0 <= ((b0 * 256 + b1) * 256 + b2) * 256 + b3 < 2 ^ 32.
Proof.
  unfold user_hash, MD5.hexdigest, MD5.digest.
  generalize (fold_left MD5.compress
                (MD5.chunks (Nat.div (length (MD5.pad (MD5.bytes_of_string user_alias))) 64)
                   (MD5.pad (MD5.bytes_of_string user_alias))) MD5.init).
  intros st. cbn [MD5.le_bytes app].
  pose proof (low_byte_range (MD5.sa st)) as H0.
  pose proof (low_byte_range (Z.shiftr (MD5.sa st) 8)) as H1.
  pose proof (low_byte_range (Z.shiftr (Z.shiftr (MD5.sa st) 8) 8)) as H2.
  pose proof (low_byte_range (Z.shiftr (Z.shiftr (Z.shiftr (MD5.sa st) 8) 8) 8)) as H3.
  eexists _, _, _, _, _. split; [reflexivity|]. split; [reflexivity|].
  split; [apply int_hex_of_four; assumption | lia].
Qed.

(** ** The float of a whole number *)















(** ** Rounding to one decimal place *)


Lemma nearest_integer_unique (n d k k' : Z) :
  0 < d -> nearest_integer n d k -> nearest_integer n d k' -> k = k'.
Proof.
  intros Hd [Hk Ek] [Hk' Ek'].
  assert (Ht : -1 <= k - k' <= 1) by nia.
  destruct (Z.eq_dec k k') as [E|N]; [exact E|exfalso].
  assert (Hcase : k = k' + 1 \/ k' = k + 1) by lia.
  destruct Hcase as [-> | ->].
  - assert (T1 : 2 * Z.abs (n - (k' + 1) * d) = d) by nia.
    assert (T2 : 2 * Z.abs (n - k' * d) = d) by nia.
    specialize (Ek T1). specialize (Ek' T2).
    rewrite Z.even_add, Ek' in Ek. discriminate.
  - assert (T1 : 2 * Z.abs (n - (k + 1) * d) = d) by nia.
    assert (T2 : 2 * Z.abs (n - k * d) = d) by nia.
    specialize (Ek T2). specialize (Ek' T1).
    rewrite Z.even_add, Ek in Ek'. discriminate.
Qed.


(** One float only is [q] rounded to one decimal place. *)
Lemma nearest_tenth_unique (q r r' : spec_float) :
  nearest_tenth q r -> nearest_tenth q r' -> r = r'.
Proof.
  destruct q as [s|s| |s m e]; cbn [nearest_tenth]; try congruence.
  intros (k & Hk & ->) (k' & Hk' & ->).
  assert (Hd : 0 < 2 ^ Z.max (- e) 0) by (apply Z.pow_pos_nonneg; lia).
  rewrite (nearest_integer_unique _ _ k k' Hd Hk Hk'). reflexivity.
Qed.

(** * The aggregator on the rows of a store *)

Section RowsSummary.

Context {Decimal : Type} {arith : Rows.DecimalArith Decimal}.

Implicit Types (rows : list (gmap string (Rows.attr Decimal))).
Implicit Types (vs : list (Rows.attr Decimal)).






Lemma len_cons {A} (a : A) (xs : list A) :
  exists p : positive, len (a :: xs) = Zpos p.
Proof.
  unfold len. cbn [length]. rewrite Nat2Z.inj_succ.
  destruct (Z.succ (Z.of_nat (length xs))) as [|p|p] eqn:E; try lia.
  exists p. reflexivity.
Qed.


End RowsSummary.



(** ** The summary of whole attainments *)


(** However a tie is broken, the average is not always a tenth nearest to
    the mean: that of 0.25 and 0.25 + 2^-54 lies above 0.25, nearer to 0.3
    than to 0.2, and the aggregator returns 0.2 (the sum is rounded to
    0.5). *)
Example calculate_team_summary_below_nearest :
  (forall (Decimal : Type) (arith : Rows.DecimalArith Decimal),
     Rows._calculate_team_summary
       [row_with (Rows.AFloat quarter); row_with (Rows.AFloat above_quarter)] =
       Ok {| Rows.total_members := 2;
             Rows.avg_attainment := Rows.NumFloat (decimal 2 1);
             Rows.members_on_track := 0;
             Rows.members_at_risk := 2 |}) /\
  2 * Z.abs (10 * (2 ^ 52 + (2 ^ 52 + 1)) - 3 * (2 * 2 ^ 54)) < 2 * 2 ^ 54 /\
  2 * 2 ^ 54 < 2 * Z.abs (10 * (2 ^ 52 + (2 ^ 52 + 1)) - 2 * (2 * 2 ^ 54)).
Proof.
  split; [intros Decimal arith; vm_compute; reflexivity|].
  split; vm_compute; reflexivity.
Qed.

Section WholeRows.

Context {Decimal : Type} {arith : Rows.DecimalArith Decimal}.

Implicit Types (rows : list (gmap string (Rows.attr Decimal))).






Lemma zero_over_whole (p : positive) :
  SFdiv 53 1024 (whole_float 0) (whole_float (Zpos p)) = S754_zero false.
Proof.
  pose proof (of_Z_positive p) as Hp. unfold whole_float.
  destruct (binary_normalize 53 1024 (Zpos p) 0 false) as [| [] | | [] m e];
    try discriminate Hp; reflexivity.
Qed.


End WholeRows.


(** ** Rows and typed members *)

Section TypedMembers.

Context {Decimal : Type} {arith : Rows.DecimalArith Decimal}.

Implicit Types (rows : list (gmap string (Rows.attr Decimal))).

Lemma same_attainment_cases (row : gmap string (Rows.attr Decimal)) (m : TeamMember) :
  same_attainment row m ->
  (Rows.attainment_of row = Rows.AInt 0 /\ overall_attainment m = None) \/
  (exists x : float,
     Rows.attainment_of row = Rows.AFloat x /\ overall_attainment m = Some x).
Proof.
  unfold same_attainment, Rows.attainment_of. intros ->.
  destruct (overall_attainment m) as [x|]; cbn.
  - right. exists x. split; reflexivity.
  - left. split; reflexivity.
Qed.

Lemma sum_agree rows (team : list TeamMember) :
  Forall2 same_attainment rows team ->
  forall (total : Rows.num Decimal) (acc : float),
    (total = Rows.NumInt 0 /\ acc = of_Z 0) \/ total = Rows.NumFloat acc ->
    (Rows.sum_from total (map Rows.attainment_of rows) = Ok (Rows.NumInt 0) /\
     fold_left add (map attainment_of team) acc = of_Z 0) \/
    Rows.sum_from total (map Rows.attainment_of rows) =
      Ok (Rows.NumFloat (fold_left add (map attainment_of team) acc)).
Proof.
  induction 1 as [|row m rows team Hrow Hall IH]; intros total acc Hacc.
  - destruct Hacc as [[-> ->] | ->]; [left|right]; cbn; auto.
  - cbn [map Rows.sum_from fold_left]. unfold attainment_of at 2 4.
    destruct (same_attainment_cases row m Hrow) as [[-> ->] | (x & -> & ->)];
      destruct Hacc as [[-> ->] | ->];
      cbn [Rows.py_add Rows.add_int default from_option id];
      try change (Rows.float_of_int 0) with (Ok (of_Z 0) : result float);
      cbn [mbind result_bind].
    + apply IH. left. split; reflexivity.
    + apply IH. right. reflexivity.
    + apply IH. right. reflexivity.
    + apply IH. right. reflexivity.
Qed.

Lemma count_agree rows (team : list TeamMember) :
  Forall2 same_attainment rows team ->
  Rows.count_on_track (map Rows.attainment_of rows) =
    Ok (Z.of_nat (length (List.filter on_track team))).
Proof.
  induction 1 as [|row m rows team Hrow Hall IH]; [reflexivity|].
  cbn [map Rows.count_on_track List.filter]. rewrite IH.
  change (on_track m)
    with (geb (default (of_Z 0) (overall_attainment m)) (of_Z 80)).
  destruct (same_attainment_cases row m Hrow) as [[-> ->] | (x & -> & ->)];
    cbn [Rows.ge_80 mbind result_bind default from_option id].
  - reflexivity.
  - destruct (geb x (of_Z 80)); cbn [length]; [|reflexivity].
    f_equal. lia.
Qed.

(** On rows whose attainment is a float or missing, the aggregator is the
    one on typed members. *)
Lemma calculate_team_summary_agree rows (team : list TeamMember) :
  Forall2 same_attainment rows team ->
  Rows._calculate_team_summary rows = Ok (summary_of (team_summary_spec team)).
Proof.
  intros Hall. pose proof (Forall2_length _ _ _ Hall) as Hlen.
  destruct Hall as [|row m rows team Hrow Hall]; [reflexivity|].
  assert (Hall' : Forall2 same_attainment (row :: rows) (m :: team))
    by (constructor; assumption).
  pose proof (count_agree _ _ Hall') as Hcount.
  pose proof (sum_agree _ _ Hall' (Rows.NumInt 0) (of_Z 0)
                (or_introl (conj eq_refl eq_refl))) as Hsum.
  destruct (len_cons row rows) as [p Hp].
  unfold Rows._calculate_team_summary. rewrite Hcount.
  unfold summary_of, team_summary_spec, mean_attainment, py_sum.
  cbn [total_members avg_attainment members_on_track members_at_risk].
  rewrite <- Hlen. fold (len (row :: rows)). rewrite Hp.
  destruct Hsum as [[-> E] | ->].
  - rewrite E. cbn [Rows.truediv mbind result_bind].
    change (div (of_Z 0) (of_Z (Zpos p)))
      with (SFdiv 53 1024 (whole_float 0) (whole_float (Zpos p))).
    rewrite zero_over_whole. reflexivity.
  - reflexivity.
Qed.

End TypedMembers.
